(** * The date server of [6_mcp/mcp_date_server.py]

    A shallow embedding of the two request handlers that the module
    registers on its MCP [Server] instance, [list_tools] and [call_tool],
    together with the part of the Python runtime they rest on: the
    dictionary lookup [dict.get], exceptions and [try]/[except], the wall
    clock behind [datetime.now()] and the rendering engine
    [datetime.strftime]. *)

From Stdlib Require Import ZArith String Ascii List Bool Lia.
From stdpp Require Import gmap strings.

Local Open Scope string_scope.
Local Open Scope Z_scope.

(** ** Python values

    The values a decoded JSON argument object can hold ([Dict[str, Any]]
    in the signature of [call_tool]), and the literals of the advertised
    schemas. A text is a byte string; a character outside ASCII stands as
    the bytes of its UTF-8 encoding. A float is given by the 64 bits of
    its representation. *)

#[warnings="-register-all"] Inductive pyvalue : Type :=
| PyNone
| PyBool (b : bool)
| PyInt (z : Z)
| PyFloat (bits : Z)
| PyStr (s : string)
| PyList (l : list pyvalue)
| PyDict (d : list (string * pyvalue)).

(** How the message of a [TypeError] names a value that is not what was
    asked for: by the name of its type, and [None] by itself. *)
Definition type_name (v : pyvalue) : string :=
  match v with
  | PyNone => "None"
  | PyBool _ => "bool"
  | PyInt _ => "int"
  | PyFloat _ => "float"
  | PyStr _ => "str"
  | PyList _ => "list"
  | PyDict _ => "dict"
  end.

(** Lookup in a dictionary literal, first binding of the key. *)
Fixpoint assoc_get (k : string) (d : list (string * pyvalue)) : option pyvalue :=
  match d with
  | [] => None
  | (k', v) :: d' => if String.eqb k k' then Some v else assoc_get k d'
  end.

Definition dict_get (k : string) (v : pyvalue) : option pyvalue :=
  match v with
  | PyDict d => assoc_get k d
  | _ => None
  end.

(** ** Exceptions *)

Inductive exn_class : Type :=
| ValueError
| UnicodeEncodeError
| TypeError
| OverflowError
| MemoryError.

(** [issubclass c ValueError]: [UnicodeEncodeError] derives from
    [UnicodeError], which derives from [ValueError]. *)
Definition is_ValueError (c : exn_class) : bool :=
  match c with
  | ValueError | UnicodeEncodeError => true
  | TypeError | OverflowError | MemoryError => false
  end.

Record exn : Type := mk_exn { exn_cls : exn_class; exn_msg : string }.

(** [str(e)] of an exception built from one message. *)
Definition str_exn (e : exn) : string := exn_msg e.

Inductive outcome (A : Type) : Type :=
| Returned (a : A)
| Raised (e : exn).

Arguments Returned {A} a.
Arguments Raised {A} e.

(** ** Dates and times *)

Record datetime : Type := mk_datetime {
  year : Z;
  month : Z;
  day : Z;
  hour : Z;
  minute : Z;
  second : Z;
  microsecond : Z
}.

Definition is_leap (y : Z) : bool :=
  (y mod 4 =? 0) && (negb (y mod 100 =? 0) || (y mod 400 =? 0)).

Definition days_in_month (y m : Z) : Z :=
  if m =? 2 then (if is_leap y then 29 else 28)
  else if (m =? 4) || (m =? 6) || (m =? 9) || (m =? 11) then 30
  else 31.

(** The invariant of a [datetime] object ([MINYEAR = 1], [MAXYEAR = 9999]). *)
Definition valid_datetime (dt : datetime) : Prop :=
  1 <= year dt <= 9999 /\
  1 <= month dt <= 12 /\
  1 <= day dt <= days_in_month (year dt) (month dt) /\
  0 <= hour dt <= 23 /\
  0 <= minute dt <= 59 /\
  0 <= second dt <= 59 /\
  0 <= microsecond dt <= 999999.

Definition valid_datetimeb (dt : datetime) : bool :=
  (1 <=? year dt) && (year dt <=? 9999) &&
  (1 <=? month dt) && (month dt <=? 12) &&
  (1 <=? day dt) && (day dt <=? days_in_month (year dt) (month dt)) &&
  (0 <=? hour dt) && (hour dt <=? 23) &&
  (0 <=? minute dt) && (minute dt <=? 59) &&
  (0 <=? second dt) && (second dt <=? 59) &&
  (0 <=? microsecond dt) && (microsecond dt <=? 999999).

(** Number of days before January 1st of year [y]. *)
Definition days_before_year (y : Z) : Z :=
  let y' := y - 1 in y' * 365 + y' / 4 - y' / 100 + y' / 400.

(** Number of days of year [y] before the first of month [m]. *)
Definition days_before_month (y m : Z) : Z :=
  fold_right Z.add 0
    (map (days_in_month y) (map Z.of_nat (seq 1 (Z.to_nat (m - 1))))).

(** Day of the year, [1] for January 1st ([tm_yday + 1]). *)
Definition yday (dt : datetime) : Z :=
  days_before_month (year dt) (month dt) + day dt.

Definition toordinal (dt : datetime) : Z :=
  days_before_year (year dt) + yday dt.

(** [datetime.weekday()]: Monday is [0]. *)
Definition weekday (dt : datetime) : Z := (toordinal dt + 6) mod 7.

(** [tm_wday] of the C library: Sunday is [0]. *)
Definition tm_wday (dt : datetime) : Z := (weekday dt + 1) mod 7.

(** Naive datetimes compare field by field, most significant first. *)
Definition fields (dt : datetime) : list Z :=
  [year dt; month dt; day dt; hour dt; minute dt; second dt; microsecond dt].

Fixpoint lex_le (a b : list Z) : bool :=
  match a, b with
  | [], _ => true
  | _ :: _, [] => false
  | x :: a', y :: b' => (x <? y) || ((x =? y) && lex_le a' b')
  end.

Definition datetime_le (a b : datetime) : bool := lex_le (fields a) (fields b).

(** ** Decimal rendering *)

Definition digit_char (d : Z) : ascii := ascii_of_nat (48 + Z.to_nat d).

Definition is_digit (c : ascii) : bool :=
  let n := nat_of_ascii c in (48 <=? n)%nat && (n <=? 57)%nat.

Fixpoint dec_fuel (fuel : nat) (n : Z) : string :=
  match fuel with
  | O => ""
  | S f =>
      if n <? 10 then String (digit_char n) ""
      else dec_fuel f (n / 10) +:+ String (digit_char (n mod 10)) ""
  end.

(** The decimal numeral of a natural number, as [%d] prints it. *)
Definition dec (n : Z) : string := dec_fuel (S (Z.to_nat (Z.log2 n))) n.

Fixpoint replicate_char (k : nat) (c : ascii) : string :=
  match k with
  | O => ""
  | S k' => String c (replicate_char k' c)
  end.

(** [%0wd] and [%wd]: the numeral, filled on the left up to width [w];
    a numeral longer than [w] is not cut. *)
Definition fill (c : ascii) (w : nat) (n : Z) : string :=
  let s := dec n in replicate_char (w - String.length s) c +:+ s.

Definition zfill (w : nat) (n : Z) : string := fill "0" w n.

(** ** The rendering engine: [datetime.strftime]

    The method is the interpreter's, not the server's. It is described
    here as CPython documents it: [%f], [%z] and [%Z] are replaced by the
    method itself, and the rest of the pattern goes to the [strftime] of
    the C library. Names and the forms of [%c], [%x] and [%X] are those of
    the C locale, which is the [LC_TIME] locale of an interpreter that
    never calls [setlocale(LC_TIME, ...)], as here. *)

Definition month_names : list string :=
  ["January"; "February"; "March"; "April"; "May"; "June"; "July";
   "August"; "September"; "October"; "November"; "December"].

Definition day_names : list string :=
  ["Sunday"; "Monday"; "Tuesday"; "Wednesday"; "Thursday"; "Friday";
   "Saturday"].

Definition abbrev (s : string) : string := substring 0 3 s.

Definition month_name (m : Z) : string :=
  nth (Z.to_nat (m - 1)) month_names "?".

Definition day_name (wd : Z) : string := nth (Z.to_nat wd) day_names "?".

Definition hour12 (h : Z) : Z := if h mod 12 =? 0 then 12 else h mod 12.

Definition am_pm (h : Z) : string := if h <? 12 then "AM" else "PM".

(** [%U]: week of the year, weeks starting on Sunday. *)
Definition week_sunday (dt : datetime) : Z := (yday dt - 1 + 7 - tm_wday dt) / 7.

(** [%W]: week of the year, weeks starting on Monday. *)
Definition week_monday (dt : datetime) : Z := (yday dt - 1 + 7 - weekday dt) / 7.

(** What is not the same on every interpreter and C library.

    [other_conversion]: what becomes of [%] followed by a character that
    is not one of the common conversions ([Some c]) or by the end of the
    pattern ([None]): something is rendered ([Some s]), or the pattern is
    refused ([None]) and [strftime] raises [ValueError].

    [pads_year]: whether [%Y] fills the year with zeros up to four digits
    or prints it as it is, so that a year below 1000 has fewer.

    [cuts_at_nul]: whether the method reads the pattern as a C string, up
    to the first NUL character, or to its end.

    A conversion is one character after [%]; flags and widths between the
    two, which some C libraries take, are outside this description. *)
Record platform : Type := mk_platform {
  other_conversion : datetime -> option ascii -> option string;
  pads_year : bool;
  cuts_at_nul : bool
}.

(** CPython 3.11 where the C library may not be handed an unknown
    conversion (the Microsoft C runtime among them): [time.strftime]
    checks the pattern itself and refuses every other conversion with
    [ValueError("Invalid format string")]; [%Y] fills the year. *)
Definition strict_platform : platform :=
  {| other_conversion := fun _ _ => None;
     pads_year := true;
     cuts_at_nul := true |}.

(** CPython 3.11 where the C library is handed every pattern and copies
    a conversion it does not know to the output, and where [%Y] prints the
    year as it is, as the GNU C library does: year 5 is "5". *)
Definition lenient_platform : platform :=
  {| other_conversion := fun _ oc =>
       Some (match oc with
             | Some c => String "%" (String c "")
             | None => "%"
             end);
     pads_year := false;
     cuts_at_nul := true |}.

(** [%Y]. *)
Definition year_text (pf : platform) (y : Z) : string :=
  if pads_year pf then zfill 4 y else dec y.

(** The conversions every platform has: those of C89, plus [%f]; [%z]
    and [%Z] are empty for the naive value [datetime.now()] returns.
    [None] for any other character. *)
Definition conversion (pf : platform) (dt : datetime) (c : ascii)
  : option string :=
  if Ascii.eqb c "a" then Some (abbrev (day_name (tm_wday dt)))
  else if Ascii.eqb c "A" then Some (day_name (tm_wday dt))
  else if Ascii.eqb c "b" then Some (abbrev (month_name (month dt)))
  else if Ascii.eqb c "B" then Some (month_name (month dt))
  else if Ascii.eqb c "c" then
    Some (abbrev (day_name (tm_wday dt)) +:+ " " +:+
          abbrev (month_name (month dt)) +:+ " " +:+
          fill " " 2 (day dt) +:+ " " +:+
          zfill 2 (hour dt) +:+ ":" +:+ zfill 2 (minute dt) +:+ ":" +:+
          zfill 2 (second dt) +:+ " " +:+ year_text pf (year dt))
  else if Ascii.eqb c "d" then Some (zfill 2 (day dt))
  else if Ascii.eqb c "f" then Some (zfill 6 (microsecond dt))
  else if Ascii.eqb c "H" then Some (zfill 2 (hour dt))
  else if Ascii.eqb c "I" then Some (zfill 2 (hour12 (hour dt)))
  else if Ascii.eqb c "j" then Some (zfill 3 (yday dt))
  else if Ascii.eqb c "m" then Some (zfill 2 (month dt))
  else if Ascii.eqb c "M" then Some (zfill 2 (minute dt))
  else if Ascii.eqb c "p" then Some (am_pm (hour dt))
  else if Ascii.eqb c "S" then Some (zfill 2 (second dt))
  else if Ascii.eqb c "U" then Some (zfill 2 (week_sunday dt))
  else if Ascii.eqb c "w" then Some (dec (tm_wday dt))
  else if Ascii.eqb c "W" then Some (zfill 2 (week_monday dt))
  else if Ascii.eqb c "x" then
    Some (zfill 2 (month dt) +:+ "/" +:+ zfill 2 (day dt) +:+ "/" +:+
          zfill 2 (year dt mod 100))
  else if Ascii.eqb c "X" then
    Some (zfill 2 (hour dt) +:+ ":" +:+ zfill 2 (minute dt) +:+ ":" +:+
          zfill 2 (second dt))
  else if Ascii.eqb c "y" then Some (zfill 2 (year dt mod 100))
  else if Ascii.eqb c "Y" then Some (year_text pf (year dt))
  else if Ascii.eqb c "z" then Some ""
  else if Ascii.eqb c "Z" then Some ""
  else if Ascii.eqb c "%" then Some "%"
  else None.

Definition invalid_format_message : string := "Invalid format string".

(** The part of a text before its first NUL character. *)
Fixpoint until_nul (s : string) : string :=
  match s with
  | EmptyString => ""
  | String c s' => if Ascii.eqb c "000" then "" else String c (until_nul s')
  end.

(** The pattern as the method reads it. *)
Definition pattern_read (pf : platform) (fmt : string) : string :=
  if cuts_at_nul pf then until_nul fmt else fmt.

Section Rendering.

Variable pf : platform.

(** One pass over the pattern that was read; [None] when it is refused. *)
Fixpoint render (dt : datetime) (fmt : string) : option string :=
  match fmt with
  | EmptyString => Some ""
  | String c rest =>
      if Ascii.eqb c "%" then
        match rest with
        | EmptyString => other_conversion pf dt None
        | String d rest' =>
            match
              match conversion pf dt d with
              | Some s => Some s
              | None => other_conversion pf dt (Some d)
              end
            with
            | Some s =>
                match render dt rest' with
                | Some out => Some (s +:+ out)
                | None => None
                end
            | None => None
            end
        end
      else
        match render dt rest with
        | Some out => Some (String c out)
        | None => None
        end
  end.

(** [dt.strftime(format)]: the argument has to be a [str]. *)
Definition datetime_strftime (dt : datetime) (format : pyvalue)
  : outcome string :=
  match format with
  | PyStr fmt =>
      match render dt (pattern_read pf fmt) with
      | Some out => Returned out
      | None => Raised (mk_exn ValueError invalid_format_message)
      end
  | v =>
      Raised (mk_exn TypeError
                ("strftime() argument 1 must be str, not " +:+ type_name v))
  end.

End Rendering.

(** ** The process and its wall clock

    [datetime.now()] is the only effect of the handlers. The world holds
    the readings the wall clock will give, one for each time it is read,
    and how often it has been read so far. *)

Record world : Type := mk_world {
  wall : nat -> datetime;
  tick : nat
}.

(** A computation that reads the clock and returns or raises. *)
Definition M (A : Type) : Type := world -> outcome A * world.

Definition ret {A : Type} (a : A) : M A := fun w => (Returned a, w).

Definition raise {A : Type} (e : exn) : M A := fun w => (Raised e, w).

Definition bind {A B : Type} (m : M A) (k : A -> M B) : M B :=
  fun w =>
    match m w with
    | (Returned a, w') => k a w'
    | (Raised e, w') => (Raised e, w')
    end.

Definition lift {A : Type} (o : outcome A) : M A := fun w => (o, w).

Notation "'let!' x ':=' m 'in' k" := (bind m (fun x => k))
  (at level 10, x name, m at level 100, k at level 200).

(** [try: body except ValueError as e: handler e]. *)
Definition try_except_ValueError {A : Type} (body : M A) (handler : exn -> M A)
  : M A :=
  fun w =>
    match body w with
    | (Raised e, w') =>
        if is_ValueError (exn_cls e) then handler e w' else (Raised e, w')
    | r => r
    end.

Definition datetime_now : M datetime :=
  fun w => (Returned (wall w (tick w)), mk_world (wall w) (S (tick w))).

(** The reading the next call of [datetime.now()] gives. *)
Definition next_reading (w : world) : datetime := wall w (tick w).

(** A wall clock that never goes back. *)
Definition monotone_clock (w : world) : Prop :=
  forall i j : nat, (i <= j)%nat -> datetime_le (wall w i) (wall w j) = true.

(** ** The handlers *)

Record Tool : Type := mk_Tool {
  name : string;
  description : string;
  inputSchema : pyvalue
}.

Record TextContent : Type := mk_TextContent {
  type : string;
  text : string
}.

Definition newline : string := String (ascii_of_nat 10) "".

Definition list_tools : M (list Tool) :=
  ret [
    {| name := "get_current_date";
       description :=
         "Get the current date and time." +:+ newline +:+ newline +:+
         "    Returns:" +:+ newline +:+
         "        The current date and time in a human-readable format";
       inputSchema :=
         PyDict [("type", PyStr "object");
                 ("properties", PyDict []);
                 ("required", PyList []);
                 ("additionalProperties", PyBool false)] |};
    {| name := "get_date_with_format";
       description :=
         "Get the current date with a specific format." +:+ newline +:+
         newline +:+ "    Args:" +:+ newline +:+
         "        format: The format string (e.g., '%Y-%m-%d', '%B %d, %Y')";
       inputSchema :=
         PyDict [("type", PyStr "object");
                 ("properties",
                  PyDict [("format",
                           PyDict [("type", PyStr "string");
                                   ("description",
                                    PyStr "The datetime format string");
                                   ("default", PyStr "%Y-%m-%d %H:%M:%S")])]);
                 ("required", PyList []);
                 ("additionalProperties", PyBool false)] |}
  ].

Section Handlers.

(** The rendering engine of the interpreter the server runs on, which
    [datetime_strftime] describes. The handlers only call it, so what does
    not hang on the text of a particular pattern holds of them for any
    engine. *)
Variable strftime : datetime -> pyvalue -> outcome string.

Definition call_tool (name : string) (arguments : gmap string pyvalue)
  : M (list TextContent) :=
  if String.eqb name "get_current_date" then
    let! current_datetime := datetime_now in
    let! rendered := lift (strftime current_datetime
                             (PyStr "%B %d, %Y at %I:%M %p")) in
    let result := "Current date and time: " +:+ rendered in
    ret [ {| type := "text"; text := result |} ]
  else if String.eqb name "get_date_with_format" then
    let format_string :=
      default (PyStr "%Y-%m-%d %H:%M:%S") (arguments !! "format") in
    try_except_ValueError
      (let! current_datetime := datetime_now in
       let! result := lift (strftime current_datetime format_string) in
       ret [ {| type := "text"; text := result |} ])
      (fun e =>
         ret [ {| type := "text";
                  text := "Error: Invalid format string - " +:+ str_exn e |} ])
  else
    ret [ {| type := "text";
             text := "Error: Unknown tool '" +:+ name +:+ "'" |} ].

End Handlers.

(** ** Reading results back

    What the specification says of the text of a result: an anchored
    pattern it matches, and the moment a long-form text names. *)

Fixpoint strip_prefix (p s : string) : option string :=
  match p with
  | EmptyString => Some s
  | String a p' =>
      match s with
      | EmptyString => None
      | String b s' => if Ascii.eqb a b then strip_prefix p' s' else None
      end
  end.

Definition starts_with (p s : string) : bool :=
  match strip_prefix p s with Some _ => true | None => false end.

Inductive regex : Type :=
| Eps
| Lit (s : string)
| Digit
| Seq (r1 r2 : regex)
| Alt (r1 r2 : regex).

(** [r{n}]. *)
Fixpoint rep (n : nat) (r : regex) : regex :=
  match n with
  | O => Eps
  | S n' => Seq r (rep n' r)
  end.

(** What can be left of [s] once [r] has matched at its start. *)
Fixpoint residuals (r : regex) (s : string) : list string :=
  match r with
  | Eps => [s]
  | Lit p => match strip_prefix p s with Some s' => [s'] | None => [] end
  | Digit =>
      match s with
      | String c s' => if is_digit c then [s'] else []
      | EmptyString => []
      end
  | Seq r1 r2 => flat_map (residuals r2) (residuals r1 s)
  | Alt r1 r2 => residuals r1 s ++ residuals r2 s
  end.

(** [^r$] on a text without line breaks: [r] matches all of [s]. *)
Definition fullmatch (r : regex) (s : string) : bool :=
  existsb (String.eqb "") (residuals r s).

Definition seqs (rs : list regex) : regex := fold_right Seq Eps rs.

Definition alts (rs : list regex) : regex :=
  match rs with
  | [] => Lit "impossible"
  | r :: rs' => fold_left Alt rs' r
  end.

(** [^\d{4}-\d{2}-\d{2}$] *)
Definition date_re : regex :=
  seqs [rep 4 Digit; Lit "-"; rep 2 Digit; Lit "-"; rep 2 Digit].

(** [^\d{4}-\d{2}-\d{2} \d{2}:\d{2}:\d{2}$] *)
Definition date_time_re : regex :=
  seqs [rep 4 Digit; Lit "-"; rep 2 Digit; Lit "-"; rep 2 Digit; Lit " ";
        rep 2 Digit; Lit ":"; rep 2 Digit; Lit ":"; rep 2 Digit].

(** The long form: month name, day, 4-digit year, hour:minute, AM or PM,
    in the sentence the handler builds. *)
Definition long_form_re : regex :=
  seqs [Lit "Current date and time: "; alts (map Lit month_names); Lit " ";
        rep 2 Digit; Lit ", "; rep 4 Digit; Lit " at "; rep 2 Digit; Lit ":";
        rep 2 Digit; Lit " "; Alt (Lit "AM") (Lit "PM")].

Fixpoint all_digits (s : string) : bool :=
  match s with
  | EmptyString => true
  | String c s' => is_digit c && all_digits s'
  end.

Definition digit_value (c : ascii) : Z := Z.of_nat (nat_of_ascii c) - 48.

Fixpoint digits_value_acc (acc : Z) (s : string) : Z :=
  match s with
  | EmptyString => acc
  | String c s' => digits_value_acc (acc * 10 + digit_value c) s'
  end.

Definition digits_value (s : string) : Z := digits_value_acc 0 s.

Fixpoint take (k : nat) (s : string) : option (string * string) :=
  match k with
  | O => Some ("", s)
  | S k' =>
      match s with
      | EmptyString => None
      | String c s' =>
          match take k' s' with
          | Some (a, b) => Some (String c a, b)
          | None => None
          end
      end
  end.

(** Exactly [k] decimal digits at the start of [s]. *)
Definition take_number (k : nat) (s : string) : option (Z * string) :=
  match take k s with
  | Some (d, rest) => if all_digits d then Some (digits_value d, rest) else None
  | None => None
  end.

(** The first of [names] that starts [s], numbered from [i]. *)
Fixpoint take_name (names : list string) (i : Z) (s : string)
  : option (Z * string) :=
  match names with
  | [] => None
  | n :: names' =>
      match strip_prefix n s with
      | Some rest => Some (i, rest)
      | None => take_name names' (i + 1) s
      end
  end.

(** The digits [s] starts with, and what follows them. *)
Fixpoint span_digits (s : string) : string * string :=
  match s with
  | EmptyString => ("", "")
  | String c s' =>
      if is_digit c
      then let (d, rest) := span_digits s' in (String c d, rest)
      else ("", s)
  end.

(** A decimal numeral of any length at the start of [s]. *)
Definition take_numeral (s : string) : option (Z * string) :=
  match span_digits s with
  | (EmptyString, _) => None
  | (d, rest) => Some (digits_value d, rest)
  end.

Definition option_bind {A B : Type} (o : option A) (k : A -> option B)
  : option B :=
  match o with Some a => k a | None => None end.

(** The moment a long-form text names, to the minute it is written to:
    year (with as many digits as it has), month, day, hour of the day and
    minute. *)
Definition parse_long_form (s : string) : option (list Z) :=
  option_bind (strip_prefix "Current date and time: " s) (fun s =>
  option_bind (take_name month_names 1 s) (fun '(mo, s) =>
  option_bind (strip_prefix " " s) (fun s =>
  option_bind (take_number 2 s) (fun '(d, s) =>
  option_bind (strip_prefix ", " s) (fun s =>
  option_bind (take_numeral s) (fun '(y, s) =>
  option_bind (strip_prefix " at " s) (fun s =>
  option_bind (take_number 2 s) (fun '(h, s) =>
  option_bind (strip_prefix ":" s) (fun s =>
  option_bind (take_number 2 s) (fun '(mi, s) =>
  option_bind (strip_prefix " " s) (fun s =>
  if (1 <=? h) && (h <=? 12) then
    if String.eqb s "AM" then Some [y; mo; d; h mod 12; mi]
    else if String.eqb s "PM" then Some [y; mo; d; h mod 12 + 12; mi]
    else None
  else None))))))))))).

(** The characters [conversion] knows. *)
Definition common_conversions : list ascii :=
  list_ascii_of_string "aAbBcdfHIjmMpSUwWxXyYzZ%".

Definition is_common (c : ascii) : bool :=
  existsb (Ascii.eqb c) common_conversions.

(** A pattern with a conversion outside the common ones, or a lone [%]
    at its end. *)
Fixpoint has_other_conversion (fmt : string) : bool :=
  match fmt with
  | EmptyString => false
  | String c rest =>
      if Ascii.eqb c "%" then
        match rest with
        | EmptyString => true
        | String d rest' => negb (is_common d) || has_other_conversion rest'
        end
      else has_other_conversion rest
  end.

(** The pattern a call of "get_date_with_format" renders: the value under
    "format", or the default. *)
Definition requested_format (arguments : gmap string pyvalue) : pyvalue :=
  default (PyStr "%Y-%m-%d %H:%M:%S") (arguments !! "format").

(** A moment to the minute: year, month, day, hour and minute. *)
Definition to_minute (dt : datetime) : list Z := firstn 5 (fields dt).

(** Two invocations of "get_current_date", one after the other. *)
Definition current_date_twice
  (strftime : datetime -> pyvalue -> outcome string)
  (arguments1 arguments2 : gmap string pyvalue)
  : M (list TextContent * list TextContent) :=
  let! first := call_tool strftime "get_current_date" arguments1 in
  let! second := call_tool strftime "get_current_date" arguments2 in
  ret (first, second).

(** Every reading of the clock is a well-formed [datetime]. *)
Definition valid_clock (w : world) : Prop :=
  forall i : nat, valid_datetime (wall w i).

(** The world after one more reading of the clock. *)
Definition advance (w : world) : world := mk_world (wall w) (S (tick w)).

Definition text_item (t : string) : TextContent :=
  {| type := "text"; text := t |}.

(** The sentence "get_current_date" answers with at the reading [dt]:
    month name, day, year, hour of the 12-hour clock, minute, AM or PM. *)
Definition long_form (pf : platform) (dt : datetime) : string :=
  "Current date and time: " +:+
  (month_name (month dt) +:+ " " +:+ zfill 2 (day dt) +:+ ", " +:+
   year_text pf (year dt) +:+ " at " +:+ zfill 2 (hour12 (hour dt)) +:+ ":" +:+
   zfill 2 (minute dt) +:+ " " +:+ am_pm (hour dt)).

(** ** Further readings of results *)

(** The year of the reading is rendered with four digits: the platform
    fills it, or it has four. *)
Definition year_has_four_digits (pf : platform) (dt : datetime) : Prop :=
  pads_year pf = true \/ 1000 <= year dt.

(** A text without a NUL character. *)
Fixpoint no_nul (s : string) : bool :=
  match s with
  | EmptyString => true
  | String c s' => negb (Ascii.eqb c "000") && no_nul s'
  end.

(** A pattern without any conversion. *)
Fixpoint no_percent (s : string) : bool :=
  match s with
  | EmptyString => true
  | String c s' => negb (Ascii.eqb c "%") && no_percent s'
  end.

(** A moment to the second. *)
Definition to_second (dt : datetime) : list Z := firstn 6 (fields dt).

(** The moment a text of the shape [y-mm-dd hh:mm:ss] names, the year
    with as many digits as it has. *)
Definition parse_date_time (s : string) : option (list Z) :=
  option_bind (take_numeral s) (fun '(y, s) =>
  option_bind (strip_prefix "-" s) (fun s =>
  option_bind (take_number 2 s) (fun '(mo, s) =>
  option_bind (strip_prefix "-" s) (fun s =>
  option_bind (take_number 2 s) (fun '(d, s) =>
  option_bind (strip_prefix " " s) (fun s =>
  option_bind (take_number 2 s) (fun '(h, s) =>
  option_bind (strip_prefix ":" s) (fun s =>
  option_bind (take_number 2 s) (fun '(mi, s) =>
  option_bind (strip_prefix ":" s) (fun s =>
  option_bind (take_number 2 s) (fun '(sec, s) =>
  match s with
  | EmptyString => Some [y; mo; d; h; mi; sec]
  | String _ _ => None
  end))))))))))).

(** [s] without the quote that ends it. *)
Fixpoint chop_quote (s : string) : option string :=
  match s with
  | EmptyString => None
  | String c s' =>
      match s' with
      | EmptyString => if Ascii.eqb c "'" then Some "" else None
      | String _ _ => option_map (String c) (chop_quote s')
      end
  end.

(** The tool name an unknown-tool text reports. *)
Definition unknown_tool_of (t : string) : option string :=
  option_bind (strip_prefix "Error: Unknown tool '" t) chop_quote.

(** The default a descriptor advertises for one of its properties. *)
Definition advertised_default (t : Tool) (property : string) : option pyvalue :=
  option_bind (dict_get "properties" (inputSchema t)) (fun properties =>
  option_bind (dict_get property properties) (dict_get "default")).

(** The descriptors a client is given when it lists the tools. *)
Definition advertised (w : world) : list Tool :=
  match fst (list_tools w) with
  | Returned tools => tools
  | Raised _ => []
  end.

(** Whether [tool_name] is the name of one of the descriptors. *)
Definition is_advertised (tools : list Tool) (tool_name : string) : bool :=
  existsb (String.eqb tool_name) (map name tools).

(** ** Sample inputs *)

Definition sample : datetime := mk_datetime 2024 3 5 14 7 9 123456.

(** A clock that reads [sample] first and a minute later from then on. *)
Definition sample_world : world :=
  mk_world (fun i => match i with
                     | O => sample
                     | S _ => mk_datetime 2024 3 5 14 8 11 654321
                     end) 0.

(** A clock that reads half a minute after [sample], after other reads. *)
Definition later_world : world :=
  mk_world (fun _ => mk_datetime 2024 3 5 14 7 39 5) 7.

(** An engine whose locale has a month name it cannot encode. *)
Definition failing_engine (dt : datetime) (format : pyvalue) : outcome string :=
  Raised (mk_exn UnicodeEncodeError "'locale' codec can't encode character").

(** [r] matches [s], whatever text follows. *)
Definition matches (r : regex) (s : string) : Prop :=
  forall rest : string, In rest (residuals r (s +:+ rest)).

(** * Properties *)

(** ** Strings *)

Section StringFacts.

Lemma app_cons (c : ascii) (a b : string) :
  String c a +:+ b = String c (a +:+ b).
Proof. reflexivity. Qed.

Lemma app_empty_r (s : string) : s +:+ "" = s.
Proof.
  induction s as [|c s IH]; [reflexivity|]. now rewrite app_cons, IH.
Qed.

Lemma app_assoc_s (a b c : string) : (a +:+ b) +:+ c = a +:+ (b +:+ c).
Proof.
  induction a as [|x a IH]; [reflexivity|]. now rewrite !app_cons, IH.
Qed.

Lemma length_app_s (a b : string) :
  String.length (a +:+ b) = (String.length a + String.length b)%nat.
Proof.
  induction a as [|x a IH]; [reflexivity|].
  rewrite app_cons. cbn. now rewrite IH.
Qed.

Lemma strip_prefix_app (p s : string) : strip_prefix p (p +:+ s) = Some s.
Proof.
  induction p as [|x p IH]; [reflexivity|].
  rewrite app_cons. cbn. now rewrite Ascii.eqb_refl.
Qed.

Lemma take_app (d rest : string) :
  take (String.length d) (d +:+ rest) = Some (d, rest).
Proof.
  induction d as [|x d IH]; [reflexivity|].
  rewrite app_cons. cbn. now rewrite IH.
Qed.

Lemma all_digits_app (a b : string) :
  all_digits (a +:+ b) = all_digits a && all_digits b.
Proof.
  induction a as [|x a IH]; [reflexivity|].
  rewrite app_cons. cbn. rewrite IH. now rewrite andb_assoc.
Qed.

Lemma digits_value_acc_app (a b : string) (acc : Z) :
  digits_value_acc acc (a +:+ b)
  = digits_value_acc (digits_value_acc acc a) b.
Proof.
  revert acc. induction a as [|x a IH]; intros acc; [reflexivity|].
  rewrite app_cons. cbn. apply IH.
Qed.

Lemma digits_value_snoc (a : string) (c : ascii) :
  digits_value (a +:+ String c "") = digits_value a * 10 + digit_value c.
Proof. unfold digits_value. now rewrite digits_value_acc_app. Qed.

End StringFacts.

(** ** Decimal numerals *)

Section Decimal.

Lemma digit_cases (d : Z) :
  0 <= d <= 9 ->
  d = 0 \/ d = 1 \/ d = 2 \/ d = 3 \/ d = 4 \/
  d = 5 \/ d = 6 \/ d = 7 \/ d = 8 \/ d = 9.
Proof. lia. Qed.

Lemma is_digit_digit_char (d : Z) :
  0 <= d <= 9 -> is_digit (digit_char d) = true.
Proof.
  intros H. destruct (digit_cases d H) as [E|[E|[E|[E|[E|[E|[E|[E|[E|E]]]]]]]]];
    subst d; reflexivity.
Qed.

Lemma digit_value_digit_char (d : Z) :
  0 <= d <= 9 -> digit_value (digit_char d) = d.
Proof.
  intros H. destruct (digit_cases d H) as [E|[E|[E|[E|[E|[E|[E|[E|[E|E]]]]]]]]];
    subst d; reflexivity.
Qed.

(** With enough fuel the numeral is made of digits, is worth [n], and is
    no longer than any width whose power of ten exceeds [n]. *)
Lemma dec_fuel_spec (f : nat) :
  forall n : Z,
    0 <= n < 2 ^ Z.of_nat (S f) ->
    all_digits (dec_fuel (S f) n) = true /\
    digits_value (dec_fuel (S f) n) = n /\
    (1 <= String.length (dec_fuel (S f) n))%nat /\
    (forall k : nat, n < 10 ^ Z.of_nat (S k) ->
                     (String.length (dec_fuel (S f) n) <= S k)%nat).
Proof.
  induction f as [|f IH]; intros n Hn.
  - assert (Hlt : (n <? 10) = true) by (apply Z.ltb_lt; cbn in Hn; lia).
    cbn [dec_fuel]. rewrite Hlt. cbn [all_digits String.length].
    rewrite is_digit_digit_char by (cbn in Hn; lia).
    repeat split; [| lia | intros; lia].
    unfold digits_value. cbn. rewrite digit_value_digit_char; cbn in Hn; lia.
  - change (dec_fuel (S (S f)) n)
      with (if n <? 10 then String (digit_char n) ""
            else dec_fuel (S f) (n / 10) +:+ String (digit_char (n mod 10)) "").
    destruct (n <? 10) eqn:Hlt.
    + apply Z.ltb_lt in Hlt. cbn [all_digits String.length].
      rewrite is_digit_digit_char by lia.
      repeat split; [| lia | intros; lia].
      unfold digits_value. cbn. rewrite digit_value_digit_char; lia.
    + apply Z.ltb_ge in Hlt.
      assert (Hq : 0 <= n / 10 < 2 ^ Z.of_nat (S f)).
      { split; [apply Z.div_pos; lia|].
        apply Z.div_lt_upper_bound; [lia|].
        rewrite (Nat2Z.inj_succ (S f)), Z.pow_succ_r in Hn by lia. lia. }
      destruct (IH (n / 10) Hq) as (Hd & Hv & Hl & Hk).
      assert (Hm : 0 <= n mod 10 <= 9) by (pose proof (Z.mod_pos_bound n 10); lia).
      rewrite all_digits_app, Hd, digits_value_snoc, Hv, length_app_s.
      cbn [all_digits String.length]. rewrite is_digit_digit_char by exact Hm.
      rewrite digit_value_digit_char by exact Hm.
      repeat split; [ pose proof (Z.div_mod n 10); lia | lia |].
      intros [|k] Hk10.
      * cbn in Hk10. lia.
      * assert (n / 10 < 10 ^ Z.of_nat (S k)).
        { apply Z.div_lt_upper_bound; [lia|].
          rewrite (Nat2Z.inj_succ (S k)), Z.pow_succ_r in Hk10 by lia. lia. }
        specialize (Hk k H). lia.
Qed.

Lemma dec_spec (n : Z) :
  0 <= n ->
  all_digits (dec n) = true /\
  digits_value (dec n) = n /\
  (1 <= String.length (dec n))%nat /\
  (forall k : nat, n < 10 ^ Z.of_nat (S k) ->
                   (String.length (dec n) <= S k)%nat).
Proof.
  intros Hn. unfold dec. apply dec_fuel_spec.
  split; [exact Hn|].
  rewrite Nat2Z.inj_succ, Z2Nat.id by apply Z.log2_nonneg.
  destruct (Z.eq_dec n 0) as [->|Hne]; [reflexivity|].
  apply Z.log2_spec. lia.
Qed.

Lemma all_digits_zeros (k : nat) : all_digits (replicate_char k "0") = true.
Proof. induction k as [|k IH]; [reflexivity|]. cbn. exact IH. Qed.

Lemma length_replicate_char (k : nat) (c : ascii) :
  String.length (replicate_char k c) = k.
Proof. induction k as [|k IH]; [reflexivity|]. cbn. now rewrite IH. Qed.

Lemma digits_value_zeros (k : nat) :
  digits_value_acc 0 (replicate_char k "0") = 0.
Proof. induction k as [|k IH]; [reflexivity|]. cbn. exact IH. Qed.

(** A field within the range of its width prints as exactly that many
    digits, and reads back as itself. *)
Lemma zfill_spec (k : nat) (n : Z) :
  0 <= n < 10 ^ Z.of_nat (S k) ->
  String.length (zfill (S k) n) = S k /\
  all_digits (zfill (S k) n) = true /\
  digits_value (zfill (S k) n) = n.
Proof.
  intros [H0 Hk]. destruct (dec_spec n H0) as (Hd & Hv & Hl & Hb).
  specialize (Hb k Hk). unfold zfill, fill. cbv zeta.
  rewrite length_app_s, length_replicate_char, all_digits_app,
    all_digits_zeros, Hd.
  repeat split; [lia|].
  unfold digits_value. rewrite digits_value_acc_app, digits_value_zeros.
  exact Hv.
Qed.

(** A numeral of [k] digits is worth less than the [k]-th power of ten. *)
Lemma digits_value_acc_bound (s : string) :
  forall acc : Z,
    0 <= acc ->
    all_digits s = true ->
    acc * 10 ^ Z.of_nat (String.length s) <= digits_value_acc acc s
    /\ digits_value_acc acc s < (acc + 1) * 10 ^ Z.of_nat (String.length s).
Proof.
  induction s as [|c s IH]; intros acc Hacc Hd.
  - cbn. lia.
  - cbn [all_digits] in Hd. apply andb_prop in Hd as [Hc Hs].
    assert (Hv : 0 <= digit_value c <= 9).
    { unfold is_digit in Hc. cbv zeta in Hc. apply andb_prop in Hc as [H1 H2].
      apply Nat.leb_le in H1, H2. unfold digit_value. lia. }
    cbn [digits_value_acc String.length].
    rewrite Nat2Z.inj_succ, Z.pow_succ_r by lia.
    destruct (IH (acc * 10 + digit_value c) ltac:(lia) Hs) as [L U].
    pose proof (Z.pow_pos_nonneg 10 (Z.of_nat (String.length s))
                  ltac:(lia) ltac:(lia)) as Hp.
    split; nia.
Qed.

(** The year as [%Y] gives it, on either kind of platform. *)
Lemma year_text_spec (pf : platform) (y : Z) :
  0 <= y <= 9999 ->
  all_digits (year_text pf y) = true /\
  digits_value (year_text pf y) = y /\
  (1 <= String.length (year_text pf y) <= 4)%nat /\
  (pads_year pf = true \/ 1000 <= y -> String.length (year_text pf y) = 4%nat).
Proof.
  intros Hy. unfold year_text. destruct (pads_year pf).
  - destruct (zfill_spec 3 y ltac:(change (10 ^ Z.of_nat 4) with 10000; lia))
      as (Hl & Hd & Hv).
    rewrite Hl. repeat split; auto; lia.
  - destruct (dec_spec y ltac:(lia)) as (Hd & Hv & Hl & Hb).
    specialize (Hb 3%nat ltac:(change (10 ^ Z.of_nat 4) with 10000; lia)).
    repeat split; auto.
    intros [E|Hk]; [discriminate E|].
    pose proof (digits_value_acc_bound (dec y) 0 ltac:(lia) Hd) as [_ U].
    fold (digits_value (dec y)) in U. rewrite Hv in U.
    destruct (String.length (dec y)) as [|[|[|[|[|n]]]]] eqn:E; cbn in U; lia.
Qed.

End Decimal.

(** ** Patterns *)

Section Matching.

Lemma matches_eps : matches Eps "".
Proof. intros rest. now left. Qed.

Lemma matches_lit (p : string) : matches (Lit p) p.
Proof. intros rest. cbn. rewrite strip_prefix_app. now left. Qed.

Lemma matches_seq (r1 r2 : regex) (s1 s2 : string) :
  matches r1 s1 -> matches r2 s2 -> matches (Seq r1 r2) (s1 +:+ s2).
Proof.
  intros H1 H2 rest. cbn. apply in_flat_map.
  exists (s2 +:+ rest). split; [rewrite app_assoc_s; apply H1 | apply H2].
Qed.

Lemma matches_alt_l (r1 r2 : regex) (s : string) :
  matches r1 s -> matches (Alt r1 r2) s.
Proof. intros H rest. cbn. apply in_or_app. left. apply H. Qed.

Lemma matches_alt_r (r1 r2 : regex) (s : string) :
  matches r2 s -> matches (Alt r1 r2) s.
Proof. intros H rest. cbn. apply in_or_app. right. apply H. Qed.

Lemma matches_digits (s : string) :
  all_digits s = true -> matches (rep (String.length s) Digit) s.
Proof.
  induction s as [|c s IH]; intros Hd.
  - apply matches_eps.
  - cbn in Hd. apply andb_prop in Hd as [Hc Hs].
    change (String c s) with (String c "" +:+ s).
    apply matches_seq; [|now apply IH].
    intros rest. change (In rest (residuals Digit (String c rest))).
    cbn. rewrite Hc. now left.
Qed.

Lemma matches_zfill (k : nat) (n : Z) :
  0 <= n < 10 ^ Z.of_nat (S k) -> matches (rep (S k) Digit) (zfill (S k) n).
Proof.
  intros H. destruct (zfill_spec k n H) as (Hl & Hd & _).
  rewrite <- Hl at 1. now apply matches_digits.
Qed.

Lemma matches_fullmatch (r : regex) (s : string) :
  matches r s -> fullmatch r s = true.
Proof.
  intros H. unfold fullmatch. apply existsb_exists. exists "".
  split; [|reflexivity]. specialize (H ""). now rewrite app_empty_r in H.
Qed.

Lemma month_cases (m : Z) :
  1 <= m <= 12 ->
  m = 1 \/ m = 2 \/ m = 3 \/ m = 4 \/ m = 5 \/ m = 6 \/
  m = 7 \/ m = 8 \/ m = 9 \/ m = 10 \/ m = 11 \/ m = 12.
Proof. lia. Qed.

Lemma matches_month (m : Z) :
  1 <= m <= 12 -> matches (alts (map Lit month_names)) (month_name m).
Proof.
  intros H rest.
  destruct (month_cases m H)
    as [E|[E|[E|[E|[E|[E|[E|[E|[E|[E|[E|E]]]]]]]]]]];
    subst m; vm_compute; tauto.
Qed.

Lemma matches_am_pm (h : Z) : matches (Alt (Lit "AM") (Lit "PM")) (am_pm h).
Proof.
  unfold am_pm. destruct (h <? 12);
    [apply matches_alt_l | apply matches_alt_r]; apply matches_lit.
Qed.

Lemma starts_with_app (p s : string) : starts_with p (p +:+ s) = true.
Proof. unfold starts_with. now rewrite strip_prefix_app. Qed.

End Matching.

(** ** What the engine renders *)

Section RenderingFacts.

Variable pf : platform.

Lemma render_long_form (dt : datetime) :
  render pf dt "%B %d, %Y at %I:%M %p"
  = Some (month_name (month dt) +:+ " " +:+ zfill 2 (day dt) +:+ ", " +:+
          year_text pf (year dt) +:+ " at " +:+ zfill 2 (hour12 (hour dt)) +:+
          ":" +:+ zfill 2 (minute dt) +:+ " " +:+ am_pm (hour dt)).
Proof.
  rewrite <- (app_empty_r (am_pm (hour dt))). reflexivity.
Qed.

Lemma render_date (dt : datetime) :
  render pf dt "%Y-%m-%d"
  = Some (year_text pf (year dt) +:+ "-" +:+ zfill 2 (month dt) +:+ "-" +:+
          zfill 2 (day dt)).
Proof.
  rewrite <- (app_empty_r (zfill 2 (day dt))). reflexivity.
Qed.

Lemma render_date_time (dt : datetime) :
  render pf dt "%Y-%m-%d %H:%M:%S"
  = Some (year_text pf (year dt) +:+ "-" +:+ zfill 2 (month dt) +:+ "-" +:+
          zfill 2 (day dt) +:+ " " +:+ zfill 2 (hour dt) +:+ ":" +:+
          zfill 2 (minute dt) +:+ ":" +:+ zfill 2 (second dt)).
Proof.
  rewrite <- (app_empty_r (zfill 2 (second dt))). reflexivity.
Qed.

Lemma conversion_common (dt : datetime) (c : ascii) :
  conversion pf dt c = None <-> is_common c = false.
Proof.
  unfold conversion, is_common. cbn [existsb common_conversions list_ascii_of_string].
  repeat (destruct (Ascii.eqb c _); [cbn; split; congruence|]).
  cbn. tauto.
Qed.

(** Induction on a pattern, two characters at a time. *)
Lemma string_pair_ind (P : string -> Prop) :
  P "" ->
  (forall c, P (String c "")) ->
  (forall c d s, P s -> P (String d s) -> P (String c (String d s))) ->
  forall s, P s.
Proof.
  intros H0 H1 H2 s.
  enough (H : P s /\ forall c, P (String c s)) by apply H.
  induction s as [|d s [IHs IHc]]; split; auto.
Qed.

(** A pattern made of text and common conversions is never refused. *)
Lemma render_common (dt : datetime) (fmt : string) :
  has_other_conversion fmt = false -> exists out, render pf dt fmt = Some out.
Proof.
  induction fmt as [|c|c d s IHs IHd] using string_pair_ind; intros H.
  - now exists "".
  - cbn in *. destruct (Ascii.eqb c "%"); [discriminate|]. eauto.
  - destruct (Ascii.eqb c "%") eqn:Ec.
    + cbn [has_other_conversion] in H. cbn [render]. rewrite Ec in *.
      apply orb_false_elim in H as [Hc Hs]. apply negb_false_iff in Hc.
      destruct (conversion _ dt d) as [x|] eqn:E.
      * destruct (IHs Hs) as [out ->]. eauto.
      * apply conversion_common in E. congruence.
    + remember (String d s) as t eqn:Et.
      cbn [has_other_conversion] in H. cbn [render]. rewrite Ec in *.
      destruct (IHd H) as [out ->]. eauto.
Qed.

End RenderingFacts.

(** On the strict platform the refused patterns are exactly those with a
    conversion outside the common ones. *)
Lemma render_strict_refuses (dt : datetime) (fmt : string) :
  render strict_platform dt fmt = None <-> has_other_conversion fmt = true.
Proof.
  induction fmt as [|c|c d s IHs IHd] using string_pair_ind.
  - cbn. split; discriminate.
  - cbn. destruct (Ascii.eqb c "%"); cbn; split; congruence.
  - destruct (Ascii.eqb c "%") eqn:Ec.
    + cbn [has_other_conversion render]. rewrite Ec.
      destruct (conversion _ dt d) as [x|] eqn:E.
      * assert (Hc : is_common d = true).
        { destruct (is_common d) eqn:Hd; [reflexivity|].
          apply (conversion_common strict_platform dt) in Hd. congruence. }
        rewrite Hc. cbn [negb orb]. rewrite <- IHs.
        destruct (render strict_platform dt s); split; congruence.
      * apply conversion_common in E. rewrite E. cbn. tauto.
    + remember (String d s) as t eqn:Et.
      cbn [has_other_conversion render]. rewrite Ec, <- IHd.
      destruct (render strict_platform dt t); split; congruence.
Qed.

(** A C library that copies unknown conversions refuses no pattern. *)
Lemma render_lenient_accepts (dt : datetime) (fmt : string) :
  exists out, render lenient_platform dt fmt = Some out.
Proof.
  induction fmt as [|c|c d s IHs IHd] using string_pair_ind.
  - now exists "".
  - cbn. destruct (Ascii.eqb c "%"); eauto.
  - destruct (Ascii.eqb c "%") eqn:Ec.
    + cbn [render]. rewrite Ec. destruct IHs as [out ->].
      destruct (conversion _ dt d); cbn; eauto.
    + remember (String d s) as t eqn:Et. cbn [render]. rewrite Ec.
      destruct IHd as [out ->]. eauto.
Qed.

(** ** Reading the long form back *)

Section Reading.

Lemma take_name_month (m : Z) (rest : string) :
  1 <= m <= 12 ->
  take_name month_names 1 (month_name m +:+ rest) = Some (m, rest).
Proof.
  intros H.
  destruct (month_cases m H)
    as [E|[E|[E|[E|[E|[E|[E|[E|[E|[E|[E|E]]]]]]]]]]];
    subst m; reflexivity.
Qed.

Lemma take_number_zfill (k : nat) (n : Z) (rest : string) :
  0 <= n < 10 ^ Z.of_nat (S k) ->
  take_number (S k) (zfill (S k) n +:+ rest) = Some (n, rest).
Proof.
  intros H. destruct (zfill_spec k n H) as (Hl & Hd & Hv).
  unfold take_number. rewrite <- Hl at 1. rewrite take_app, Hd, Hv.
  reflexivity.
Qed.

Lemma span_digits_app (d : string) (c : ascii) (rest : string) :
  all_digits d = true ->
  is_digit c = false ->
  span_digits (d +:+ String c rest) = (d, String c rest).
Proof.
  intros Hd Hc. induction d as [|x d IH].
  - change (span_digits (String c rest) = ("", String c rest)).
    cbn [span_digits]. now rewrite Hc.
  - cbn [all_digits] in Hd. apply andb_prop in Hd as [Hx Hd].
    rewrite app_cons. cbn [span_digits]. now rewrite Hx, (IH Hd).
Qed.

(** The year is read back whatever its number of digits, as long as
    something other than a digit follows it. *)
Lemma take_numeral_year (pf : platform) (y : Z) (sep rest : string) :
  0 <= y <= 9999 ->
  match sep with
  | String c _ => is_digit c = false
  | EmptyString => False
  end ->
  take_numeral (year_text pf y +:+ sep +:+ rest) = Some (y, sep +:+ rest).
Proof.
  intros Hy Hsep. destruct sep as [|c sep]; [contradiction|].
  destruct (year_text_spec pf y Hy) as (Hd & Hv & [Hl _] & _).
  rewrite app_cons. unfold take_numeral. rewrite (span_digits_app _ _ _ Hd Hsep).
  destruct (year_text pf y) as [|a r] eqn:E; [cbn in Hl; lia|].
  now rewrite Hv.
Qed.

Lemma hour12_range (h : Z) : 0 <= h <= 23 -> 1 <= hour12 h <= 12.
Proof.
  intros H. unfold hour12. pose proof (Z.mod_pos_bound h 12).
  destruct (h mod 12 =? 0) eqn:E; [lia|]. apply Z.eqb_neq in E. lia.
Qed.

Lemma hour12_back (h : Z) :
  0 <= h <= 23 ->
  hour12 h mod 12 + (if h <? 12 then 0 else 12) = h.
Proof.
  intros H. unfold hour12.
  pose proof (Z.div_mod h 12 ltac:(lia)) as D.
  pose proof (Z.mod_pos_bound h 12 ltac:(lia)) as B.
  destruct (h mod 12 =? 0) eqn:E;
    [apply Z.eqb_eq in E; change (12 mod 12) with 0
    |apply Z.eqb_neq in E; rewrite (Z.mod_small (h mod 12) 12) by lia];
    (destruct (h <? 12) eqn:L; [apply Z.ltb_lt in L | apply Z.ltb_ge in L]);
    lia.
Qed.

(** The text the handler builds names the reading it was built from. *)
Lemma parse_long_form_render (pf : platform) (dt : datetime) :
  valid_datetime dt ->
  parse_long_form (long_form pf dt) = Some (to_minute dt).
Proof.
  intros (Hy & Hm & Hd & Hh & Hmi & _).
  assert (Hd' : day dt <= 31).
  { unfold days_in_month in Hd.
    repeat match type of Hd with context [if ?b then _ else _] => destruct b end;
      lia. }
  pose proof (hour12_range _ Hh) as Hh12.
  unfold parse_long_form, long_form.
  rewrite strip_prefix_app. cbn [option_bind].
  rewrite take_name_month by exact Hm. cbn [option_bind].
  rewrite strip_prefix_app. cbn [option_bind].
  rewrite take_number_zfill by (change (10 ^ Z.of_nat 2) with 100; lia).
  cbn [option_bind]. rewrite strip_prefix_app. cbn [option_bind].
  rewrite take_numeral_year by (first [lia | reflexivity]).
  cbn [option_bind]. rewrite strip_prefix_app. cbn [option_bind].
  rewrite take_number_zfill by (change (10 ^ Z.of_nat 2) with 100; lia).
  cbn [option_bind]. rewrite strip_prefix_app. cbn [option_bind].
  rewrite take_number_zfill by (change (10 ^ Z.of_nat 2) with 100; lia).
  cbn [option_bind]. rewrite strip_prefix_app. cbn [option_bind].
  replace ((1 <=? hour12 (hour dt)) && (hour12 (hour dt) <=? 12)) with true
    by (symmetry; apply andb_true_intro; split; apply Z.leb_le; lia).
  pose proof (hour12_back _ Hh) as Hb.
  unfold am_pm. unfold am_pm in Hb. unfold to_minute. cbn [fields firstn].
  destruct (hour dt <? 12); cbn [String.eqb]; cbn; repeat f_equal; lia.
Qed.

Lemma lex_le_firstn (n : nat) :
  forall a b : list Z,
    lex_le a b = true -> lex_le (firstn n a) (firstn n b) = true.
Proof.
  induction n as [|n IH]; intros [|x a] [|y b] H; try reflexivity;
    try discriminate.
  cbn in *. apply orb_true_iff in H as [H|H]; [now rewrite H|].
  apply andb_true_iff in H as [E H]. rewrite E, (IH _ _ H).
  now rewrite orb_true_r.
Qed.

End Reading.

(** ** The texts of the results *)

Section Texts.

Variable pf : platform.

Lemma matches_year (dt : datetime) :
  0 <= year dt <= 9999 ->
  year_has_four_digits pf dt ->
  matches (rep 4 Digit) (year_text pf (year dt)).
Proof.
  intros Hy H4.
  destruct (year_text_spec pf (year dt) Hy) as (Hd & _ & _ & Hl).
  rewrite <- (Hl H4). now apply matches_digits.
Qed.

Lemma day_le_31 (dt : datetime) : valid_datetime dt -> 1 <= day dt <= 31.
Proof.
  intros (_ & _ & Hd & _). unfold days_in_month in Hd.
  repeat match type of Hd with
         | context [if ?b then _ else _] => destruct b
         end; lia.
Qed.

Ltac width_bound :=
  first [ change (10 ^ Z.of_nat 2) with 100
        | change (10 ^ Z.of_nat 4) with 10000 ]; lia.

Ltac match_fields :=
  repeat (apply matches_seq;
          [first [ apply matches_lit | apply matches_month
                 | apply matches_year | apply matches_zfill
                 | apply matches_am_pm ] |]);
  [.. | apply matches_eps].

Lemma long_form_matches (dt : datetime) :
  valid_datetime dt ->
  year_has_four_digits pf dt ->
  fullmatch long_form_re (long_form pf dt) = true.
Proof.
  intros V H4. pose proof (day_le_31 dt V) as Hd.
  destruct V as (Hy & Hm & _ & Hh & Hmi & _).
  pose proof (hour12_range _ Hh) as Hh12.
  apply matches_fullmatch. unfold long_form.
  rewrite <- (app_empty_r (am_pm (hour dt))).
  unfold long_form_re, seqs. cbn [fold_right].
  match_fields; first [assumption | width_bound].
Qed.

Lemma date_matches (dt : datetime) :
  valid_datetime dt ->
  year_has_four_digits pf dt ->
  fullmatch date_re
    (year_text pf (year dt) +:+ "-" +:+ zfill 2 (month dt) +:+ "-" +:+
     zfill 2 (day dt)) = true.
Proof.
  intros V H4. pose proof (day_le_31 dt V) as Hd.
  destruct V as (Hy & Hm & _).
  apply matches_fullmatch.
  rewrite <- (app_empty_r (zfill 2 (day dt))).
  unfold date_re, seqs. cbn [fold_right].
  match_fields; first [assumption | width_bound].
Qed.

Lemma date_time_matches (dt : datetime) :
  valid_datetime dt ->
  year_has_four_digits pf dt ->
  fullmatch date_time_re
    (year_text pf (year dt) +:+ "-" +:+ zfill 2 (month dt) +:+ "-" +:+
     zfill 2 (day dt) +:+ " " +:+ zfill 2 (hour dt) +:+ ":" +:+
     zfill 2 (minute dt) +:+ ":" +:+ zfill 2 (second dt)) = true.
Proof.
  intros V H4. pose proof (day_le_31 dt V) as Hd.
  destruct V as (Hy & Hm & _ & Hh & Hmi & Hs & _).
  apply matches_fullmatch.
  rewrite <- (app_empty_r (zfill 2 (second dt))).
  unfold date_time_re, seqs. cbn [fold_right].
  match_fields; first [assumption | width_bound].
Qed.

End Texts.

(** ** Running the handlers *)

Section Runs.

Variable strftime : datetime -> pyvalue -> outcome string.

(** One call of "get_current_date", in terms of what the engine does. *)
Lemma call_tool_current_date (arguments : gmap string pyvalue) (w : world) :
  call_tool strftime "get_current_date" arguments w
  = (match strftime (next_reading w) (PyStr "%B %d, %Y at %I:%M %p") with
     | Returned out => Returned [text_item ("Current date and time: " +:+ out)]
     | Raised e => Raised e
     end, advance w).
Proof.
  unfold call_tool, bind, datetime_now, lift, ret, next_reading, advance.
  cbn [String.eqb Ascii.eqb Bool.eqb].
  destruct (strftime _ _); reflexivity.
Qed.

(** One call of "get_date_with_format", in terms of what the engine does. *)
Lemma call_tool_date_with_format (arguments : gmap string pyvalue) (w : world) :
  call_tool strftime "get_date_with_format" arguments w
  = (match strftime (next_reading w) (requested_format arguments) with
     | Returned out => Returned [text_item out]
     | Raised e =>
         if is_ValueError (exn_cls e)
         then Returned
                [text_item ("Error: Invalid format string - " +:+ str_exn e)]
         else Raised e
     end, advance w).
Proof.
  unfold call_tool, try_except_ValueError, bind, datetime_now, lift, ret,
    next_reading, advance, requested_format.
  cbn [String.eqb Ascii.eqb Bool.eqb].
  destruct (strftime _ _) as [out|e]; [reflexivity|].
  destruct (is_ValueError (exn_cls e)); reflexivity.
Qed.

Lemma call_tool_other (name : string) (arguments : gmap string pyvalue)
  (w : world) :
  name <> "get_current_date" ->
  name <> "get_date_with_format" ->
  call_tool strftime name arguments w
  = (Returned [text_item ("Error: Unknown tool '" +:+ name +:+ "'")], w).
Proof.
  intros H1 H2. unfold call_tool.
  apply String.eqb_neq in H1, H2. now rewrite H1, H2.
Qed.

End Runs.

(** ** What the described engine raises *)

Section EngineFaults.

Variable pf : platform.

(** A pattern is only ever refused with [ValueError], and only when what
    is read of it has a conversion outside the common ones. *)
Lemma datetime_strftime_str_fault (dt : datetime) (fmt : string) (e : exn) :
  datetime_strftime pf dt (PyStr fmt) = Raised e ->
  e = mk_exn ValueError invalid_format_message /\
  has_other_conversion (pattern_read pf fmt) = true.
Proof.
  unfold datetime_strftime. intros H.
  destruct (has_other_conversion (pattern_read pf fmt)) eqn:Ho.
  - destruct (render pf dt (pattern_read pf fmt)); inversion H. auto.
  - destruct (render_common pf dt _ Ho) as [out E].
    rewrite E in H. discriminate.
Qed.

(** The three patterns the handlers hold themselves have no NUL. *)
Lemma strftime_long_form (dt : datetime) :
  datetime_strftime pf dt (PyStr "%B %d, %Y at %I:%M %p")
  = Returned (month_name (month dt) +:+ " " +:+ zfill 2 (day dt) +:+ ", " +:+
              year_text pf (year dt) +:+ " at " +:+
              zfill 2 (hour12 (hour dt)) +:+ ":" +:+ zfill 2 (minute dt) +:+
              " " +:+ am_pm (hour dt)).
Proof.
  unfold datetime_strftime, pattern_read.
  destruct (cuts_at_nul pf);
    [change (until_nul "%B %d, %Y at %I:%M %p") with "%B %d, %Y at %I:%M %p"|];
    now rewrite render_long_form.
Qed.

Lemma strftime_date (dt : datetime) :
  datetime_strftime pf dt (PyStr "%Y-%m-%d")
  = Returned (year_text pf (year dt) +:+ "-" +:+ zfill 2 (month dt) +:+ "-" +:+
              zfill 2 (day dt)).
Proof.
  unfold datetime_strftime, pattern_read.
  destruct (cuts_at_nul pf);
    [change (until_nul "%Y-%m-%d") with "%Y-%m-%d"|];
    now rewrite render_date.
Qed.

Lemma strftime_date_time (dt : datetime) :
  datetime_strftime pf dt (PyStr "%Y-%m-%d %H:%M:%S")
  = Returned (year_text pf (year dt) +:+ "-" +:+ zfill 2 (month dt) +:+ "-" +:+
              zfill 2 (day dt) +:+ " " +:+ zfill 2 (hour dt) +:+ ":" +:+
              zfill 2 (minute dt) +:+ ":" +:+ zfill 2 (second dt)).
Proof.
  unfold datetime_strftime, pattern_read.
  destruct (cuts_at_nul pf);
    [change (until_nul "%Y-%m-%d %H:%M:%S") with "%Y-%m-%d %H:%M:%S"|];
    now rewrite render_date_time.
Qed.

(** Anything but a [str] as the pattern is a [TypeError]. *)
Lemma datetime_strftime_not_str (dt : datetime) (v : pyvalue) :
  (forall s, v <> PyStr s) ->
  datetime_strftime pf dt v
  = Raised (mk_exn TypeError
              ("strftime() argument 1 must be str, not " +:+ type_name v)).
Proof. intros H. destruct v; try reflexivity. now destruct (H s). Qed.

End EngineFaults.

(** On the strict platform every pattern that has, before any NUL, a
    conversion outside the common ones is answered with the error text. *)
Lemma strict_platform_reports_other_conversions
  (arguments : gmap string pyvalue) (w : world) (fmt : string) :
  arguments !! "format" = Some (PyStr fmt) ->
  has_other_conversion (until_nul fmt) = true ->
  call_tool (datetime_strftime strict_platform) "get_date_with_format"
    arguments w
  = (Returned
       [text_item "Error: Invalid format string - Invalid format string"],
     advance w).
Proof.
  intros Hf Ho. rewrite call_tool_date_with_format.
  unfold requested_format. rewrite Hf. cbn [from_option id].
  unfold datetime_strftime.
  change (pattern_read strict_platform fmt) with (until_nul fmt).
  apply render_strict_refuses with (dt := next_reading w) in Ho.
  now rewrite Ho.
Qed.

(** * The specified behaviour *)

(** C1. For a tool name that is neither "get_current_date" nor
    "get_date_with_format", and any argument map, [call_tool] returns
    normally, whatever the rendering engine and the clock: its result is
    one text item that reports "Unknown tool '<name>'" for that name. The
    error travels as content; nothing is raised and the clock is not read. *)
Theorem call_tool_unknown_tool
  (strftime : datetime -> pyvalue -> outcome string) (name : string)
  (arguments : gmap string pyvalue) (w : world) :
  name <> "get_current_date" ->
  name <> "get_date_with_format" ->
  call_tool strftime name arguments w
  = (Returned [ {| type := "text";
                   text := "Error: Unknown tool '" +:+ name +:+ "'" |} ], w).
Proof. apply call_tool_other. Qed.

Lemma call_tool_unknown_tool_witness :
  "get_time" <> "get_current_date" /\
  "get_time" <> "get_date_with_format" /\
  call_tool (datetime_strftime strict_platform) "get_time"
    {[ "format" := PyStr "%H" ]} sample_world
  = (Returned [ {| type := "text";
                   text := "Error: Unknown tool 'get_time'" |} ],
     sample_world).
Proof.
  split; [discriminate|]. split; [discriminate|].
  apply (call_tool_unknown_tool (datetime_strftime strict_platform) "get_time");
    discriminate.
Defined.

(** C9. Whenever [call_tool] returns normally, for any tool name, known or
    not, and any argument map, the value returned is a list of exactly one
    content item, and the kind of that item is "text". *)
Theorem call_tool_single_text_item
  (strftime : datetime -> pyvalue -> outcome string) (name : string)
  (arguments : gmap string pyvalue) (w w' : world)
  (items : list TextContent) :
  call_tool strftime name arguments w = (Returned items, w') ->
  exists item : TextContent, items = [item] /\ type item = "text".
Proof.
  intros H.
  destruct (String.eqb_spec name "get_current_date") as [->|N1].
  - rewrite call_tool_current_date in H.
    destruct (strftime _ _); inversion H; subst. eauto.
  - destruct (String.eqb_spec name "get_date_with_format") as [->|N2].
    + rewrite call_tool_date_with_format in H.
      destruct (strftime _ _) as [out|e]; [inversion H; subst; eauto|].
      destruct (is_ValueError (exn_cls e)); inversion H; subst. eauto.
    + rewrite call_tool_other in H by assumption.
      inversion H; subst. eauto.
Qed.

Lemma call_tool_single_text_item_witness :
  exists item : TextContent,
    [ {| type := "text"; text := "2024-03-05" |} ] = [item] /\
    type item = "text".
Proof.
  apply (call_tool_single_text_item (datetime_strftime lenient_platform)
           "get_date_with_format" {[ "format" := PyStr "%Y-%m-%d" ]}
           sample_world (advance sample_world)).
  reflexivity.
Defined.

(** C5. Any two calls of [list_tools] in one run, whatever happened to the
    world in between, return the same descriptors in the same order; the
    call leaves the world as it is; the sequence is not empty and no two
    of its descriptors have the same name. *)
Theorem list_tools_stable (w1 w2 : world) :
  fst (list_tools w1) = fst (list_tools w2) /\
  snd (list_tools w1) = w1 /\
  exists tools : list Tool,
    fst (list_tools w1) = Returned tools /\
    tools <> [] /\
    List.NoDup (map name tools) /\
    map name tools = ["get_current_date"; "get_date_with_format"].
Proof.
  split; [reflexivity|]. split; [reflexivity|].
  eexists. split; [reflexivity|]. split; [discriminate|].
  split; [|reflexivity].
  cbn. apply List.NoDup_cons; [intros [E|[]]; discriminate E|].
  apply List.NoDup_cons; [intros []|apply List.NoDup_nil].
Qed.

(** C10. The result of "get_current_date" does not depend on its
    arguments: at the same reading of the clock any two argument maps give
    the same outcome and the same world, whatever the engine; and on the
    engine described here the call never fails, it returns one text item. *)
Theorem current_date_ignores_arguments
  (strftime : datetime -> pyvalue -> outcome string) (pf : platform)
  (arguments1 arguments2 : gmap string pyvalue) (w : world) :
  call_tool strftime "get_current_date" arguments1 w
  = call_tool strftime "get_current_date" arguments2 w /\
  exists t : string,
    call_tool (datetime_strftime pf) "get_current_date" arguments1 w
    = (Returned [ {| type := "text"; text := t |} ], advance w).
Proof.
  split; [now rewrite !call_tool_current_date|].
  rewrite call_tool_current_date. rewrite strftime_long_form. eauto.
Qed.

(** C2. When the value under "format" is a string the rendering engine
    refuses as a pattern, that is, rendering it raises a [ValueError],
    "get_date_with_format" does not raise: it returns one text item that
    begins with "Error:" and ends with the message of that error. *)
Theorem invalid_format_reported
  (strftime : datetime -> pyvalue -> outcome string)
  (arguments : gmap string pyvalue) (w : world) (fmt : string) (e : exn) :
  arguments !! "format" = Some (PyStr fmt) ->
  strftime (next_reading w) (PyStr fmt) = Raised e ->
  is_ValueError (exn_cls e) = true ->
  call_tool strftime "get_date_with_format" arguments w
  = (Returned
       [ {| type := "text";
            text := "Error: Invalid format string - " +:+ str_exn e |} ],
     advance w) /\
  starts_with "Error:" ("Error: Invalid format string - " +:+ str_exn e) = true.
Proof.
  intros Hf Hr Hv. split; [|reflexivity].
  rewrite call_tool_date_with_format. unfold requested_format.
  rewrite Hf. cbn [from_option id]. now rewrite Hr, Hv.
Qed.

Lemma invalid_format_reported_witness :
  ({[ "format" := PyStr "%Q" ]} : gmap string pyvalue) !! "format"
  = Some (PyStr "%Q") /\
  datetime_strftime strict_platform (next_reading sample_world) (PyStr "%Q")
  = Raised (mk_exn ValueError "Invalid format string") /\
  is_ValueError ValueError = true /\
  call_tool (datetime_strftime strict_platform) "get_date_with_format"
    {[ "format" := PyStr "%Q" ]} sample_world
  = (Returned
       [ {| type := "text";
            text := "Error: Invalid format string - Invalid format string" |} ],
     advance sample_world).
Proof.
  split; [reflexivity|]. split; [reflexivity|]. split; [reflexivity|].
  apply (invalid_format_reported (datetime_strftime strict_platform)
           {[ "format" := PyStr "%Q" ]} sample_world "%Q"
           (mk_exn ValueError "Invalid format string"));
    reflexivity.
Defined.

(** C3. In "get_date_with_format" a fault of the rendering is swallowed and
    turned into text only if it is a [ValueError]; any other fault raised
    while the handler runs leaves [call_tool] as it was raised. A value
    under "format" that is not a string is such a fault: the witness has
    an integer there, and the [TypeError] reaches the caller. *)
Theorem other_faults_propagate
  (strftime : datetime -> pyvalue -> outcome string)
  (arguments : gmap string pyvalue) (w : world) (e : exn) :
  strftime (next_reading w) (requested_format arguments) = Raised e ->
  call_tool strftime "get_date_with_format" arguments w
  = (if is_ValueError (exn_cls e)
     then Returned
            [ {| type := "text";
                 text := "Error: Invalid format string - " +:+ str_exn e |} ]
     else Raised e,
     advance w).
Proof.
  intros Hr. rewrite call_tool_date_with_format, Hr.
  now destruct (is_ValueError (exn_cls e)).
Qed.

Lemma other_faults_propagate_witness :
  datetime_strftime strict_platform (next_reading sample_world)
    (requested_format {[ "format" := PyInt 3 ]})
  = Raised (mk_exn TypeError "strftime() argument 1 must be str, not int") /\
  call_tool (datetime_strftime strict_platform) "get_date_with_format"
    {[ "format" := PyInt 3 ]} sample_world
  = (Raised (mk_exn TypeError "strftime() argument 1 must be str, not int"),
     advance sample_world).
Proof.
  split; [reflexivity|].
  apply (other_faults_propagate (datetime_strftime strict_platform)
           {[ "format" := PyInt 3 ]} sample_world
           (mk_exn TypeError "strftime() argument 1 must be str, not int")).
  reflexivity.
Defined.

(** C4. At a well-formed reading of the clock whose year is rendered with
    four digits (the year is 1000 or later, or the platform fills it),
    "get_date_with_format" with "format" bound to "%Y-%m-%d" returns a text
    that matches [^\d{4}-\d{2}-\d{2}$]; without the key "format" it
    returns what the default pattern "%Y-%m-%d %H:%M:%S" renders, and that
    text matches [^\d{4}-\d{2}-\d{2} \d{2}:\d{2}:\d{2}$]. *)
Theorem date_with_format_patterns
  (pf : platform) (with_format without_format : gmap string pyvalue)
  (w : world) :
  valid_datetime (next_reading w) ->
  year_has_four_digits pf (next_reading w) ->
  with_format !! "format" = Some (PyStr "%Y-%m-%d") ->
  without_format !! "format" = None ->
  (exists t : string,
     call_tool (datetime_strftime pf) "get_date_with_format" with_format w
     = (Returned [ {| type := "text"; text := t |} ], advance w) /\
     fullmatch date_re t = true) /\
  (exists t : string,
     call_tool (datetime_strftime pf) "get_date_with_format" without_format w
     = (Returned [ {| type := "text"; text := t |} ], advance w) /\
     datetime_strftime pf (next_reading w) (PyStr "%Y-%m-%d %H:%M:%S")
     = Returned t /\
     fullmatch date_time_re t = true).
Proof.
  intros V H4 Hw Ho. split.
  - rewrite call_tool_date_with_format. unfold requested_format.
    rewrite Hw. cbn [from_option id]. rewrite strftime_date.
    eexists. split; [reflexivity|]. now apply date_matches.
  - rewrite call_tool_date_with_format. unfold requested_format.
    rewrite Ho. cbn [from_option id]. rewrite strftime_date_time.
    eexists. split; [reflexivity|].
    split; [reflexivity|]. now apply date_time_matches.
Qed.

Lemma date_with_format_patterns_witness :
  (exists t : string,
     call_tool (datetime_strftime lenient_platform) "get_date_with_format"
       {[ "format" := PyStr "%Y-%m-%d" ]} sample_world
     = (Returned [ {| type := "text"; text := t |} ], advance sample_world) /\
     fullmatch date_re t = true) /\
  (exists t : string,
     call_tool (datetime_strftime lenient_platform) "get_date_with_format"
       {[ "verbose" := PyBool true ]} sample_world
     = (Returned [ {| type := "text"; text := t |} ], advance sample_world) /\
     datetime_strftime lenient_platform (next_reading sample_world)
       (PyStr "%Y-%m-%d %H:%M:%S")
     = Returned t /\
     fullmatch date_time_re t = true).
Proof.
  apply (date_with_format_patterns lenient_platform
           {[ "format" := PyStr "%Y-%m-%d" ]} {[ "verbose" := PyBool true ]}
           sample_world).
  - unfold valid_datetime. cbn. lia.
  - right. cbn. lia.
  - reflexivity.
  - reflexivity.
Defined.

Lemma call_tool_current_date_text
  (pf : platform) (arguments : gmap string pyvalue) (w : world) :
  call_tool (datetime_strftime pf) "get_current_date" arguments w
  = (Returned [text_item (long_form pf (next_reading w))], advance w).
Proof.
  rewrite call_tool_current_date. now rewrite strftime_long_form.
Qed.

(** C6. At a well-formed reading of the clock, "get_current_date" returns
    exactly one text item: the sentence that gives that reading in the long
    form, month name, day, year and the time of the 12-hour clock with AM
    or PM, and the text names the reading to the minute. When the year is
    rendered with four digits (it is 1000 or later, or the platform fills
    it), the text matches the same long-form pattern at every reading. *)
Theorem current_date_long_form
  (pf : platform) (arguments : gmap string pyvalue) (w : world) :
  valid_datetime (next_reading w) ->
  year_has_four_digits pf (next_reading w) ->
  call_tool (datetime_strftime pf) "get_current_date" arguments w
  = (Returned [ {| type := "text"; text := long_form pf (next_reading w) |} ],
     advance w) /\
  fullmatch long_form_re (long_form pf (next_reading w)) = true /\
  parse_long_form (long_form pf (next_reading w))
  = Some (to_minute (next_reading w)).
Proof.
  intros V H4. split; [apply call_tool_current_date_text|].
  split; [now apply long_form_matches | now apply parse_long_form_render].
Qed.

Lemma current_date_long_form_witness :
  call_tool (datetime_strftime lenient_platform) "get_current_date" ∅
    sample_world
  = (Returned [ {| type := "text";
                   text := long_form lenient_platform
                             (next_reading sample_world) |} ],
     advance sample_world) /\
  fullmatch long_form_re
    (long_form lenient_platform (next_reading sample_world)) = true /\
  parse_long_form (long_form lenient_platform (next_reading sample_world))
  = Some (to_minute (next_reading sample_world)).
Proof.
  apply (current_date_long_form lenient_platform ∅ sample_world).
  - unfold valid_datetime. cbn. lia.
  - right. cbn. lia.
Defined.

(** C7. When the wall clock never goes back, its readings are well-formed
    and their years are rendered with four digits (they are 1000 or later,
    or the platform fills them), two invocations of "get_current_date" one
    after the other both return normally, each with a text that matches
    the long-form pattern, and the moment the second text names is not
    before the one the first names. *)
Theorem successive_current_dates
  (pf : platform) (arguments1 arguments2 : gmap string pyvalue) (w : world) :
  monotone_clock w ->
  valid_clock w ->
  (forall i : nat, year_has_four_digits pf (wall w i)) ->
  exists (t1 t2 : string) (m1 m2 : list Z),
    current_date_twice (datetime_strftime pf) arguments1 arguments2 w
    = (Returned ([ {| type := "text"; text := t1 |} ],
                 [ {| type := "text"; text := t2 |} ]),
       advance (advance w)) /\
    fullmatch long_form_re t1 = true /\
    fullmatch long_form_re t2 = true /\
    parse_long_form t1 = Some m1 /\
    parse_long_form t2 = Some m2 /\
    m1 = to_minute (wall w (tick w)) /\
    m2 = to_minute (wall w (S (tick w))) /\
    lex_le m1 m2 = true.
Proof.
  intros Hmono Hvalid H4.
  exists (long_form pf (wall w (tick w))),
    (long_form pf (wall w (S (tick w)))),
    (to_minute (wall w (tick w))), (to_minute (wall w (S (tick w)))).
  split.
  { unfold current_date_twice, bind.
    rewrite !call_tool_current_date_text. reflexivity. }
  repeat split;
    try (apply long_form_matches; [apply Hvalid | apply H4]);
    try (apply parse_long_form_render; apply Hvalid).
  unfold to_minute. apply lex_le_firstn. apply Hmono. lia.
Qed.

Lemma successive_current_dates_witness :
  exists (t1 t2 : string) (m1 m2 : list Z),
    current_date_twice (datetime_strftime lenient_platform) ∅ ∅ sample_world
    = (Returned ([ {| type := "text"; text := t1 |} ],
                 [ {| type := "text"; text := t2 |} ]),
       advance (advance sample_world)) /\
    fullmatch long_form_re t1 = true /\
    fullmatch long_form_re t2 = true /\
    parse_long_form t1 = Some m1 /\
    parse_long_form t2 = Some m2 /\
    m1 = to_minute (wall sample_world (tick sample_world)) /\
    m2 = to_minute (wall sample_world (S (tick sample_world))) /\
    lex_le m1 m2 = true.
Proof.
  apply (successive_current_dates lenient_platform ∅ ∅ sample_world).
  - intros [|i] [|j] Hij; try reflexivity. lia.
  - intros [|i]; unfold valid_datetime; cbn; lia.
  - intros [|i]; right; cbn; lia.
Defined.

(** C8. Both advertised schemas declare "additionalProperties" false, yet
    [call_tool] checks no argument against them. For "get_date_with_format"
    at one reading of the clock, two argument maps that agree on "format"
    give the same result, whatever other keys they hold; a map without
    "format" gives the result of the default "%Y-%m-%d %H:%M:%S", and that
    call returns normally. *)
Theorem arguments_beyond_format_ignored
  (strftime : datetime -> pyvalue -> outcome string) (pf : platform)
  (arguments1 arguments2 : gmap string pyvalue) (w : world) :
  arguments1 !! "format" = arguments2 !! "format" ->
  call_tool strftime "get_date_with_format" arguments1 w
  = call_tool strftime "get_date_with_format" arguments2 w /\
  call_tool strftime "get_date_with_format" (delete "format" arguments1) w
  = call_tool strftime "get_date_with_format"
      (<["format" := PyStr "%Y-%m-%d %H:%M:%S"]> arguments1) w /\
  (exists t : string,
     call_tool (datetime_strftime pf) "get_date_with_format"
       (delete "format" arguments1) w
     = (Returned [ {| type := "text"; text := t |} ], advance w)) /\
  (exists tools : list Tool,
     fst (list_tools w) = Returned tools /\
     Forall (fun t => dict_get "additionalProperties" (inputSchema t)
                      = Some (PyBool false)) tools).
Proof.
  intros Heq. split.
  { rewrite !call_tool_date_with_format. unfold requested_format.
    now rewrite Heq. }
  split.
  { rewrite !call_tool_date_with_format. unfold requested_format.
    now rewrite lookup_delete_eq, lookup_insert_eq. }
  split.
  { rewrite call_tool_date_with_format. unfold requested_format.
    rewrite lookup_delete_eq. cbn [from_option id].
    rewrite strftime_date_time. eauto. }
  eexists. split; [reflexivity|].
  repeat constructor.
Qed.

Lemma arguments_beyond_format_ignored_witness :
  call_tool (datetime_strftime strict_platform) "get_date_with_format"
    {[ "format" := PyStr "%H:%M" ]} sample_world
  = call_tool (datetime_strftime strict_platform) "get_date_with_format"
      (<["timezone" := PyStr "UTC"]> {[ "format" := PyStr "%H:%M" ]})
      sample_world.
Proof.
  refine (proj1 (arguments_beyond_format_ignored
                   (datetime_strftime strict_platform) strict_platform
                   {[ "format" := PyStr "%H:%M" ]}
                   (<["timezone" := PyStr "UTC"]> {[ "format" := PyStr "%H:%M" ]})
                   sample_world _)).
  reflexivity.
Defined.

(** * Further properties of the handlers *)

Section MoreFacts.

Variable pf : platform.

Lemma render_no_percent (dt : datetime) (fmt : string) :
  no_percent fmt = true -> render pf dt fmt = Some fmt.
Proof.
  induction fmt as [|c fmt IH]; intros H; [reflexivity|].
  cbn [no_percent] in H. apply andb_prop in H as [Hc Hr].
  apply negb_true_iff in Hc. cbn [render]. rewrite Hc.
  now rewrite (IH Hr).
Qed.

Lemma chop_quote_app (n : string) : chop_quote (n +:+ "'") = Some n.
Proof.
  induction n as [|c n IH]; [reflexivity|].
  rewrite app_cons.
  assert (E : exists a r, n +:+ "'" = String a r) by (destruct n; cbn; eauto).
  destruct E as (a & r & E). cbn [chop_quote]. rewrite E, <- E, IH.
  reflexivity.
Qed.

Lemma parse_date_time_render (dt : datetime) :
  valid_datetime dt ->
  parse_date_time
    (year_text pf (year dt) +:+ "-" +:+ zfill 2 (month dt) +:+ "-" +:+
     zfill 2 (day dt) +:+ " " +:+ zfill 2 (hour dt) +:+ ":" +:+
     zfill 2 (minute dt) +:+ ":" +:+ zfill 2 (second dt))
  = Some (to_second dt).
Proof.
  intros V. pose proof (day_le_31 dt V) as Hd.
  destruct V as (Hy & Hm & _ & Hh & Hmi & Hs & _).
  rewrite <- (app_empty_r (zfill 2 (second dt))).
  unfold parse_date_time.
  rewrite take_numeral_year by (first [lia | reflexivity]).
  cbn [option_bind]. rewrite strip_prefix_app. cbn [option_bind].
  repeat (rewrite take_number_zfill
            by (first [ change (10 ^ Z.of_nat 2) with 100
                      | change (10 ^ Z.of_nat 4) with 10000 ]; lia);
          cbn [option_bind];
          try (rewrite strip_prefix_app; cbn [option_bind])).
  reflexivity.
Qed.

Lemma until_nul_no_nul (s : string) : no_nul s = true -> until_nul s = s.
Proof.
  induction s as [|c s IH]; intros H; [reflexivity|].
  cbn [no_nul] in H. apply andb_prop in H as [Hc Hs].
  apply negb_true_iff in Hc. cbn [until_nul]. now rewrite Hc, (IH Hs).
Qed.

Lemma call_tool_no_percent
  (arguments : gmap string pyvalue) (w : world) (fmt : string) :
  arguments !! "format" = Some (PyStr fmt) ->
  no_percent fmt = true ->
  no_nul fmt = true ->
  call_tool (datetime_strftime pf) "get_date_with_format" arguments w
  = (Returned [text_item fmt], advance w).
Proof.
  intros Hf Hn Hz. rewrite call_tool_date_with_format. unfold requested_format.
  rewrite Hf. cbn [from_option id]. unfold datetime_strftime, pattern_read.
  rewrite (until_nul_no_nul fmt Hz).
  destruct (cuts_at_nul pf); now rewrite render_no_percent.
Qed.

End MoreFacts.

(** X1. On the described engine "get_date_with_format" raises exactly when
    "format" is bound to a value that is not a string: a string, whatever
    it holds, and a missing key always give a normal return. *)
Theorem date_with_format_raises_iff
  (pf : platform) (arguments : gmap string pyvalue) (w : world) :
  (exists e : exn,
     fst (call_tool (datetime_strftime pf) "get_date_with_format" arguments w)
     = Raised e) <->
  (exists v : pyvalue,
     arguments !! "format" = Some v /\ forall s : string, v <> PyStr s).
Proof.
  rewrite call_tool_date_with_format. cbn [fst]. unfold requested_format.
  destruct (arguments !! "format") as [v|] eqn:Hf; cbn [from_option id].
  - destruct (datetime_strftime pf (next_reading w) v) as [out|e] eqn:Hr.
    + split; [intros [e He]; discriminate|].
      intros (v' & Hv' & Hns). inversion Hv'; subst v'.
      rewrite (datetime_strftime_not_str pf _ v Hns) in Hr. discriminate.
    + destruct v;
        try (cbn in Hr; inversion Hr; subst e; cbn; split;
             [intros _; eexists; split; [reflexivity|intros s; discriminate]
             |intros _; eauto]).
      apply datetime_strftime_str_fault in Hr as [-> _]. cbn.
      split; [intros [e He]; discriminate|].
      intros (v' & Hv' & Hns). inversion Hv'; subst v'. now destruct (Hns s).
  - rewrite strftime_date_time.
    split; [intros [e He]; discriminate|].
    intros (v & Hv & _). discriminate.
Qed.

(** X2. A value under "format" that is not a string, the null value
    included, is not replaced by the default: the engine is called with
    it, and its [TypeError], which names the type of the value ([None]
    for the null value), leaves [call_tool] after the clock has been
    read. *)
Theorem non_string_format_raises
  (pf : platform) (arguments : gmap string pyvalue) (w : world) (v : pyvalue) :
  arguments !! "format" = Some v ->
  (forall s : string, v <> PyStr s) ->
  call_tool (datetime_strftime pf) "get_date_with_format" arguments w
  = (Raised (mk_exn TypeError
               ("strftime() argument 1 must be str, not " +:+ type_name v)),
     advance w).
Proof.
  intros Hf Hns. rewrite call_tool_date_with_format. unfold requested_format.
  rewrite Hf. cbn [from_option id].
  now rewrite (datetime_strftime_not_str pf _ v Hns).
Qed.

Lemma non_string_format_raises_witness :
  call_tool (datetime_strftime lenient_platform) "get_date_with_format"
    {[ "format" := PyNone ]} sample_world
  = (Raised (mk_exn TypeError
               "strftime() argument 1 must be str, not None"),
     advance sample_world).
Proof.
  apply (non_string_format_raises lenient_platform {[ "format" := PyNone ]}
           sample_world PyNone).
  - reflexivity.
  - intros s. discriminate.
Defined.

(** X3. Whatever the engine does, a call for an advertised tool reads the
    clock exactly once, also when it raises or reports a refused pattern,
    and a call for any other name does not read it. *)
Theorem clock_read_once_for_advertised
  (strftime : datetime -> pyvalue -> outcome string) (tool_name : string)
  (arguments : gmap string pyvalue) (w : world) :
  snd (call_tool strftime tool_name arguments w)
  = if is_advertised (advertised w) tool_name then advance w else w.
Proof.
  change (is_advertised (advertised w) tool_name)
    with (String.eqb tool_name "get_current_date"
          || (String.eqb tool_name "get_date_with_format" || false)).
  destruct (String.eqb_spec tool_name "get_current_date") as [->|N1].
  { now rewrite call_tool_current_date. }
  destruct (String.eqb_spec tool_name "get_date_with_format") as [->|N2].
  { now rewrite call_tool_date_with_format. }
  now rewrite call_tool_other.
Qed.

(** X4. No call depends on what happened before it: the outcome of a call
    hangs on the world only through the reading the clock gives next, not
    on how often the clock was read nor on any other reading. *)
Theorem call_tool_stateless
  (strftime : datetime -> pyvalue -> outcome string) (tool_name : string)
  (arguments : gmap string pyvalue) (w1 w2 : world) :
  next_reading w1 = next_reading w2 ->
  fst (call_tool strftime tool_name arguments w1)
  = fst (call_tool strftime tool_name arguments w2).
Proof.
  intros Hr.
  destruct (String.eqb_spec tool_name "get_current_date") as [->|N1].
  { now rewrite !call_tool_current_date, Hr. }
  destruct (String.eqb_spec tool_name "get_date_with_format") as [->|N2].
  { now rewrite !call_tool_date_with_format, Hr. }
  now rewrite !call_tool_other.
Qed.

Lemma call_tool_stateless_witness :
  fst (call_tool (datetime_strftime strict_platform) "get_current_date" ∅
         sample_world)
  = fst (call_tool (datetime_strftime strict_platform) "get_current_date" ∅
           (mk_world (fun _ => sample) 12)).
Proof.
  apply (call_tool_stateless (datetime_strftime strict_platform)
           "get_current_date" ∅ sample_world (mk_world (fun _ => sample) 12)).
  reflexivity.
Defined.

(** X5. The default the descriptor of "get_date_with_format" advertises
    for "format" is the one [call_tool] applies: without the key, the call
    gives what it gives with the advertised default bound to it. *)
Theorem advertised_default_is_applied
  (strftime : datetime -> pyvalue -> outcome string)
  (arguments : gmap string pyvalue) (w : world) (t : Tool) :
  In t (advertised w) ->
  name t = "get_date_with_format" ->
  arguments !! "format" = None ->
  exists d : pyvalue,
    advertised_default t "format" = Some d /\
    call_tool strftime "get_date_with_format" arguments w
    = call_tool strftime "get_date_with_format" (<["format" := d]> arguments) w.
Proof.
  intros Hin Hn Hf.
  destruct Hin as [<-|[<-|[]]]; [discriminate Hn|].
  eexists. split; [reflexivity|].
  rewrite !call_tool_date_with_format. unfold requested_format.
  now rewrite lookup_insert_eq, Hf.
Qed.

Lemma advertised_default_is_applied_witness :
  exists d : pyvalue,
    advertised_default (nth 1 (advertised sample_world) (mk_Tool "" "" PyNone))
      "format" = Some d /\
    call_tool (datetime_strftime strict_platform) "get_date_with_format"
      {[ "verbose" := PyBool true ]} sample_world
    = call_tool (datetime_strftime strict_platform) "get_date_with_format"
        (<["format" := d]> {[ "verbose" := PyBool true ]}) sample_world.
Proof.
  apply (advertised_default_is_applied (datetime_strftime strict_platform)
           {[ "verbose" := PyBool true ]} sample_world
           (nth 1 (advertised sample_world) (mk_Tool "" "" PyNone))).
  - right. left. reflexivity.
  - reflexivity.
  - reflexivity.
Defined.

(** X6. Every advertised tool declares no required property and keeps to
    it: called with the empty argument map it returns normally, with one
    text item. *)
Theorem advertised_tools_accept_no_arguments
  (pf : platform) (w : world) (t : Tool) :
  In t (advertised w) ->
  dict_get "required" (inputSchema t) = Some (PyList []) /\
  exists txt : string,
    call_tool (datetime_strftime pf) (name t) ∅ w
    = (Returned [ {| type := "text"; text := txt |} ], advance w).
Proof.
  intros Hin.
  destruct Hin as [<-|[<-|[]]]; (split; [reflexivity|]); cbn [name].
  - rewrite call_tool_current_date_text. eauto.
  - rewrite call_tool_date_with_format. unfold requested_format.
    rewrite lookup_empty. cbn [from_option id]. rewrite strftime_date_time. eauto.
Qed.

Lemma advertised_tools_accept_no_arguments_witness :
  dict_get "required"
    (inputSchema (nth 0 (advertised later_world) (mk_Tool "" "" PyNone)))
  = Some (PyList []) /\
  exists txt : string,
    call_tool (datetime_strftime lenient_platform)
      (name (nth 0 (advertised later_world) (mk_Tool "" "" PyNone))) ∅
      later_world
    = (Returned [ {| type := "text"; text := txt |} ], advance later_world).
Proof.
  apply (advertised_tools_accept_no_arguments lenient_platform later_world
           (nth 0 (advertised later_world) (mk_Tool "" "" PyNone))).
  left. reflexivity.
Defined.

(** X7. A pattern without any [%] and without a NUL character is handed
    back as it is: with such a string under "format" the text of the
    result is that string, at every reading of the clock and on every
    platform. *)
Theorem literal_pattern_echoed
  (pf : platform) (arguments : gmap string pyvalue) (w : world) (fmt : string) :
  arguments !! "format" = Some (PyStr fmt) ->
  no_percent fmt = true ->
  no_nul fmt = true ->
  call_tool (datetime_strftime pf) "get_date_with_format" arguments w
  = (Returned [ {| type := "text"; text := fmt |} ], advance w).
Proof.
  apply call_tool_no_percent.
Qed.

Lemma literal_pattern_echoed_witness :
  call_tool (datetime_strftime lenient_platform) "get_date_with_format"
    {[ "format" := PyStr "today" ]} sample_world
  = (Returned [ {| type := "text"; text := "today" |} ], advance sample_world).
Proof.
  apply (literal_pattern_echoed lenient_platform
           {[ "format" := PyStr "today" ]} sample_world "today");
    reflexivity.
Defined.

(** X8. The text that reports a refused pattern is no mark of failure.
    Whatever the engine: when the pattern under "format" makes it raise a
    [ValueError], and the text that reports this is, as a pattern, handed
    back by the engine as it is, then the call with that text under
    "format" succeeds with the very same result. *)
Theorem error_text_also_a_success
  (strftime : datetime -> pyvalue -> outcome string)
  (arguments : gmap string pyvalue) (w : world) (e : exn) :
  strftime (next_reading w) (requested_format arguments) = Raised e ->
  is_ValueError (exn_cls e) = true ->
  strftime (next_reading w)
    (PyStr ("Error: Invalid format string - " +:+ str_exn e))
  = Returned ("Error: Invalid format string - " +:+ str_exn e) ->
  call_tool strftime "get_date_with_format"
    (<["format" := PyStr ("Error: Invalid format string - " +:+ str_exn e)]>
       arguments) w
  = call_tool strftime "get_date_with_format" arguments w.
Proof.
  intros Hr Hv He. rewrite !call_tool_date_with_format.
  unfold requested_format in *. rewrite lookup_insert_eq. cbn [from_option id].
  now rewrite He, Hr, Hv.
Qed.

Lemma error_text_also_a_success_witness :
  call_tool (datetime_strftime strict_platform) "get_date_with_format"
    (<["format" :=
         PyStr "Error: Invalid format string - Invalid format string"]>
       {[ "format" := PyStr "%Q" ]}) sample_world
  = call_tool (datetime_strftime strict_platform) "get_date_with_format"
      {[ "format" := PyStr "%Q" ]} sample_world.
Proof.
  apply (error_text_also_a_success (datetime_strftime strict_platform)
           {[ "format" := PyStr "%Q" ]} sample_world
           (mk_exn ValueError "Invalid format string"));
    reflexivity.
Defined.

(** X9. The text of "get_current_date" gives the reading to the minute and
    no further: at two well-formed readings the results are the same
    exactly when the readings agree in year, month, day, hour and minute,
    so seconds and microseconds never show. *)
Theorem current_date_text_to_the_minute
  (pf : platform) (arguments1 arguments2 : gmap string pyvalue)
  (w1 w2 : world) :
  valid_datetime (next_reading w1) ->
  valid_datetime (next_reading w2) ->
  fst (call_tool (datetime_strftime pf) "get_current_date" arguments1 w1)
  = fst (call_tool (datetime_strftime pf) "get_current_date" arguments2 w2)
  <-> to_minute (next_reading w1) = to_minute (next_reading w2).
Proof.
  intros V1 V2. rewrite !call_tool_current_date_text. cbn [fst]. split.
  - intros H.
    assert (Ht : long_form pf (next_reading w1)
                 = long_form pf (next_reading w2))
      by (unfold text_item in H; congruence).
    apply (f_equal parse_long_form) in Ht.
    rewrite !parse_long_form_render in Ht by assumption.
    congruence.
  - unfold to_minute. cbn [fields firstn]. intros H.
    inversion H as [[Hy Hmo Hd Hh Hmi]].
    unfold long_form. now rewrite Hy, Hmo, Hd, Hh, Hmi.
Qed.

Lemma current_date_text_to_the_minute_witness :
  fst (call_tool (datetime_strftime strict_platform) "get_current_date" ∅
         sample_world)
  = fst (call_tool (datetime_strftime strict_platform) "get_current_date" ∅
           later_world)
  <-> to_minute (next_reading sample_world) = to_minute (next_reading later_world).
Proof.
  apply (current_date_text_to_the_minute strict_platform ∅ ∅ sample_world
           later_world);
    unfold valid_datetime; cbn; lia.
Defined.

(** X10. Without "format" the text of "get_date_with_format" gives the
    reading to the second: at a well-formed reading it parses, as
    [y-mm-dd hh:mm:ss] with the year at whatever number of digits it was
    rendered with, back to the year, month, day, hour, minute and second
    of the reading, on every platform. *)
Theorem default_text_names_the_second
  (pf : platform) (arguments : gmap string pyvalue) (w : world) :
  valid_datetime (next_reading w) ->
  arguments !! "format" = None ->
  exists t : string,
    call_tool (datetime_strftime pf) "get_date_with_format" arguments w
    = (Returned [ {| type := "text"; text := t |} ], advance w) /\
    parse_date_time t = Some (to_second (next_reading w)).
Proof.
  intros V Hf. rewrite call_tool_date_with_format. unfold requested_format.
  rewrite Hf. cbn [from_option id]. rewrite strftime_date_time. eexists. split; [reflexivity|].
  now apply parse_date_time_render.
Qed.

Lemma default_text_names_the_second_witness :
  exists t : string,
    call_tool (datetime_strftime lenient_platform) "get_date_with_format" ∅
      later_world
    = (Returned [ {| type := "text"; text := t |} ], advance later_world) /\
    parse_date_time t = Some (to_second (next_reading later_world)).
Proof.
  apply (default_text_names_the_second lenient_platform ∅ later_world).
  - unfold valid_datetime. cbn. lia.
  - reflexivity.
Defined.

(** X11. The text for an unknown tool gives the name back: whatever
    characters the name holds, quotes included, taking the fixed words and
    the closing quote off the text leaves the name that was asked for. *)
Theorem unknown_tool_text_names_the_tool
  (strftime : datetime -> pyvalue -> outcome string) (tool_name : string)
  (arguments : gmap string pyvalue) (w : world) :
  is_advertised (advertised w) tool_name = false ->
  exists t : string,
    fst (call_tool strftime tool_name arguments w)
    = Returned [ {| type := "text"; text := t |} ] /\
    unknown_tool_of t = Some tool_name.
Proof.
  change (is_advertised (advertised w) tool_name)
    with (String.eqb tool_name "get_current_date"
          || (String.eqb tool_name "get_date_with_format" || false)).
  intros H. apply orb_false_elim in H as [H1 H2].
  apply orb_false_elim in H2 as [H2 _].
  apply String.eqb_neq in H1, H2.
  rewrite call_tool_other by assumption. cbn [fst].
  eexists. split; [reflexivity|].
  unfold unknown_tool_of. rewrite strip_prefix_app. cbn [option_bind].
  apply chop_quote_app.
Qed.

Lemma unknown_tool_text_names_the_tool_witness :
  exists t : string,
    fst (call_tool (datetime_strftime strict_platform) "rock 'n' roll" ∅
           sample_world)
    = Returned [ {| type := "text"; text := t |} ] /\
    unknown_tool_of t = Some "rock 'n' roll".
Proof.
  apply (unknown_tool_text_names_the_tool (datetime_strftime strict_platform)
           "rock 'n' roll" ∅ sample_world).
  reflexivity.
Defined.

(** X12. "get_current_date" has no handler for faults: whatever the engine
    raises while it renders the fixed pattern, a [ValueError] or one of
    its subclasses included, leaves [call_tool] as it was raised, after
    the clock has been read. *)
Theorem current_date_faults_propagate
  (strftime : datetime -> pyvalue -> outcome string)
  (arguments : gmap string pyvalue) (w : world) (e : exn) :
  strftime (next_reading w) (PyStr "%B %d, %Y at %I:%M %p") = Raised e ->
  call_tool strftime "get_current_date" arguments w = (Raised e, advance w).
Proof.
  intros Hr. now rewrite call_tool_current_date, Hr.
Qed.

Lemma current_date_faults_propagate_witness :
  is_ValueError UnicodeEncodeError = true /\
  call_tool failing_engine "get_current_date" ∅ sample_world
  = (Raised (mk_exn UnicodeEncodeError "'locale' codec can't encode character"),
     advance sample_world).
Proof.
  split; [reflexivity|].
  apply (current_date_faults_propagate failing_engine ∅ sample_world).
  reflexivity.
Defined.
